(** * Currency mini-agent: the currency tools and the tool-dispatch loop

    A shallow embedding of [tc_complete_currency.py]:
    - the Python values that travel between the model, the tools and the
      conversation ([PyVal]), with binary64 floats as [spec_float];
    - [CurrencyTools]: [list_supported], [resolve_currency], [convert];
    - [ToolExecutor]: [register_tool], [register_tools], [run].

    Python text is modelled as ASCII text ([string]); characters above 127
    are inert (neither whitespace, nor letters, nor digits).  The external
    services the program calls are parameters of the development: the
    completion provider, [json.loads] and the interpreter's rendering of an
    exception ([str(e)]). *)

From Stdlib Require Import ZArith QArith Qround Qabs Lqa List String Ascii Bool Lia.
From Stdlib Require Import DecimalString.
From Stdlib Require Import Floats.SpecFloat.
Import ListNotations.

Set Warnings "-register-all,-notation-for-abbreviation".
Local Open Scope string_scope.
Local Open Scope Z_scope.

(** ** Python values, exceptions and fallible computations *)

Module Py.

(** Binary64 floats, as CPython's [float]. *)
Definition float := spec_float.
Definition prec : Z := 53.
Definition emax : Z := 1024.

(** The values of the program: what [json.loads] can produce and what the
    tools return.  A [dict] keeps its insertion order. *)
Inductive PyVal : Type :=
| PyNone
| PyBool (b : bool)
| PyInt (z : Z)
| PyFloat (f : float)
| PyStr (s : string)
| PyList (l : list PyVal)
| PyDict (d : list (string * PyVal)).

(** The exceptions (all subclasses of [Exception]) that the code can meet. *)
Inductive PyExn : Type :=
| JSONDecodeError (doc : string)
| KeyError (key : PyVal)
| AttributeError (obj : PyVal) (attr : string)
| TypeError_not_mapping (callee : string) (v : PyVal)
| TypeError_arguments (callee : string) (params : list string)
                      (kwargs : list (string * PyVal))
| TypeError_other (what : string)
| OverflowError (what : string)
| ProviderError (what : string).

Inductive Result (A : Type) : Type :=
| Ok (a : A)
| Raise (e : PyExn).
Arguments Ok {A} a.
Arguments Raise {A} e.

Definition bind {A B} (r : Result A) (k : A -> Result B) : Result B :=
  match r with
  | Ok a => k a
  | Raise e => Raise e
  end.

Declare Scope py_scope.
Delimit Scope py_scope with py.
Notation "x <- c ;; k" := (bind c (fun x => k))
  (at level 61, c at next level, right associativity) : py_scope.

(** [try: ... except Exception as e: handler(e)] *)
Definition try_except {A} (body : Result A) (handler : PyExn -> A) : A :=
  match body with
  | Ok a => a
  | Raise e => handler e
  end.

(** ** Strings *)

Definition char_code (c : ascii) : N := N_of_ascii c.

(** [str.isspace] on one ASCII character: TAB..CR, FS..US and the space. *)
Definition is_space (c : ascii) : bool :=
  let n := char_code c in
  ((9 <=? n) && (n <=? 13) || (28 <=? n) && (n <=? 32))%N.

Definition is_upper (c : ascii) : bool :=
  let n := char_code c in ((65 <=? n) && (n <=? 90))%N.
Definition is_lower (c : ascii) : bool :=
  let n := char_code c in ((97 <=? n) && (n <=? 122))%N.
Definition is_digit (c : ascii) : bool :=
  let n := char_code c in ((48 <=? n) && (n <=? 57))%N.

Definition char_upper (c : ascii) : ascii :=
  if is_lower c then ascii_of_N (char_code c - 32) else c.
Definition char_lower (c : ascii) : ascii :=
  if is_upper c then ascii_of_N (char_code c + 32) else c.

Fixpoint str_map (f : ascii -> ascii) (s : string) : string :=
  match s with
  | EmptyString => EmptyString
  | String c r => String (f c) (str_map f r)
  end.

Definition str_upper : string -> string := str_map char_upper.
Definition str_lower : string -> string := str_map char_lower.

Fixpoint lstrip_by (sp : ascii -> bool) (s : string) : string :=
  match s with
  | EmptyString => EmptyString
  | String c r => if sp c then lstrip_by sp r else s
  end.

Fixpoint rstrip_by (sp : ascii -> bool) (s : string) : string :=
  match s with
  | EmptyString => EmptyString
  | String c r =>
      match rstrip_by sp r with
      | EmptyString => if sp c then EmptyString else String c EmptyString
      | r' => String c r'
      end
  end.

(** [s.strip()] *)
Definition str_strip (s : string) : string := rstrip_by is_space (lstrip_by is_space s).

(** Text made only of characters of a class, and text free of them. *)
Fixpoint all_by (sp : ascii -> bool) (s : string) : bool :=
  match s with
  | EmptyString => true
  | String c r => sp c && all_by sp r
  end.

Fixpoint none_by (sp : ascii -> bool) (s : string) : bool :=
  match s with
  | EmptyString => true
  | String c r => negb (sp c) && none_by sp r
  end.

Definition all_space : string -> bool := all_by is_space.
Definition no_space : string -> bool := none_by is_space.

(** Text made of ASCII letters. *)
Definition is_letter (c : ascii) : bool := is_lower (char_lower c).
Definition all_letters : string -> bool := all_by is_letter.

(** The same text up to the case of its ASCII letters. *)
Fixpoint eq_ignore_case (a b : string) : bool :=
  match a, b with
  | EmptyString, EmptyString => true
  | String x a', String y b' =>
      Ascii.eqb (char_lower x) (char_lower y) && eq_ignore_case a' b'
  | _, _ => false
  end.

(** [sub in s] *)
Fixpoint has_substring (sub s : string) : bool :=
  String.prefix sub s ||
  match s with
  | EmptyString => false
  | String _ r => has_substring sub r
  end.

(** [", ".join(parts)] *)
Fixpoint str_join (sep : string) (parts : list string) : string :=
  match parts with
  | [] => ""
  | [p] => p
  | p :: rest => p ++ sep ++ str_join sep rest
  end.

Definition str_of_Z (z : Z) : string := NilZero.string_of_int (Z.to_int z).

(** ** Dictionaries with string keys *)

Fixpoint dict_get {V} (d : list (string * V)) (k : string) : option V :=
  match d with
  | [] => None
  | (k', v) :: rest => if String.eqb k k' then Some v else dict_get rest k
  end.

Definition dict_keys {V} (d : list (string * V)) : list string := map fst d.

(** [d[k] = v]: an existing key keeps its place. *)
Fixpoint dict_set {V} (d : list (string * V)) (k : string) (v : V) : list (string * V) :=
  match d with
  | [] => [(k, v)]
  | (k', v') :: rest =>
      if String.eqb k k' then (k', v) :: rest else (k', v') :: dict_set rest k v
  end.

Fixpoint mem (s : string) (l : list string) : bool :=
  match l with
  | [] => false
  | x :: rest => String.eqb s x || mem s rest
  end.

(** [sorted] on a list of strings (insertion sort; code-point order). *)
Fixpoint insert_sorted (s : string) (l : list string) : list string :=
  match l with
  | [] => [s]
  | x :: rest => if String.leb s x then s :: l else x :: insert_sorted s rest
  end.

Definition sorted (l : list string) : list string :=
  fold_right insert_sorted [] l.

(** ** Binary64 arithmetic

    Every conversion from an exact rational to a float rounds to nearest,
    ties to even, as CPython's [strtod], [int.__float__] and [*] do. *)

Definition float_of_Q (szero : bool) (q : Q) : float :=
  match Qnum q with
  | Z0 => S754_zero szero
  | Zpos n => SFdiv prec emax (S754_finite false n 0) (S754_finite false (Qden q) 0)
  | Zneg n => SFdiv prec emax (S754_finite true n 0) (S754_finite false (Qden q) 0)
  end.

Definition pow10 (e : Z) : Q := Qpower (10 # 1) e.
Definition pow2 (e : Z) : Q := Qpower (2 # 1) e.

(** The float nearest to [(-1)^s * m * 10^e]: a decimal literal. *)
Definition float_of_decimal (s : bool) (m : Z) (e : Z) : float :=
  float_of_Q s (inject_Z (if s then - m else m) * pow10 e).

Definition float_of_Z (z : Z) : float := float_of_Q false (inject_Z z).

Definition float_mul : float -> float -> float := SFmul prec emax.

Definition is_finite (x : float) : bool :=
  match x with
  | S754_zero _ | S754_finite _ _ _ => true
  | _ => false
  end.

Definition is_infinite (x : float) : bool :=
  match x with
  | S754_infinity _ => true
  | _ => false
  end.

Definition Qltb (a b : Q) : bool := negb (Qle_bool b a).

(** Nearest integer, ties to even, of a non-negative rational. *)
Definition round_half_even (q : Q) : Z :=
  let f := Qfloor q in
  let r := (q - inject_Z f)%Q in
  if Qltb r (1 # 2) then f
  else if Qltb (1 # 2) r then f + 1
  else if Z.even f then f else f + 1.

(** [int.__float__]: [OverflowError] when the integer rounds out of range. *)
Definition float_of_int (z : Z) : Result float :=
  let x := float_of_Z z in
  if is_infinite x then Raise (OverflowError "int too large to convert to float")
  else Ok x.

(** [float.__round__(x, ndigits)] with an explicit [ndigits]
    (Objects/floatobject.c: [double_round]): the exact value is rounded to
    [ndigits] decimals, ties to even, and the decimal is read back. *)
Definition NDIGITS_MAX : Z := 323.
Definition NDIGITS_MIN : Z := -308.

Definition double_round (x : float) (ndigits : Z) : Result float :=
  match x with
  | S754_finite s m e =>
      let digits := round_half_even (inject_Z (Zpos m) * pow2 e * pow10 ndigits) in
      let rounded := float_of_decimal s digits (- ndigits) in
      if is_infinite rounded
      then Raise (OverflowError "rounded value too large to represent")
      else Ok rounded
  | _ => Ok x
  end.

Definition py_round (x : float) (ndigits : Z) : Result float :=
  if negb (is_finite x) then Ok x
  else if ndigits >? NDIGITS_MAX then Ok x
  else if ndigits <? NDIGITS_MIN then Ok (float_mul (S754_zero false) x)
  else double_round x ndigits.

(** ** [float(text)]: Objects/floatobject.c, [PyFloat_FromString] *)

(** C's [isspace] on ASCII, which is what [float] strips from ASCII text. *)
Definition is_c_space (c : ascii) : bool :=
  let n := char_code c in ((9 <=? n) && (n <=? 13) || (n =? 32))%N.

Definition is_underscore (c : ascii) : bool := (char_code c =? 95)%N.

(** Underscores are dropped; each must sit between two digits. *)
Fixpoint drop_underscores (prev : ascii) (s : string) : option string :=
  match s with
  | EmptyString => if is_underscore prev then None else Some EmptyString
  | String c r =>
      if is_underscore c then
        if is_digit prev then drop_underscores c r else None
      else if is_underscore prev && negb (is_digit c) then None
      else option_map (String c) (drop_underscores c r)
  end.

Fixpoint span_digits (s : string) : string * string :=
  match s with
  | String c r =>
      if is_digit c then let '(d, rest) := span_digits r in (String c d, rest)
      else (EmptyString, s)
  | EmptyString => (EmptyString, EmptyString)
  end.

Fixpoint digits_value (acc : Z) (s : string) : Z :=
  match s with
  | EmptyString => acc
  | String c r => digits_value (10 * acc + (Z.of_N (char_code c) - 48)) r
  end.

Definition parse_sign (s : string) : bool * string :=
  match s with
  | String c r =>
      if (char_code c =? 45)%N then (true, r)
      else if (char_code c =? 43)%N then (false, r)
      else (false, s)
  | EmptyString => (false, s)
  end.

Definition is_exp_mark (c : ascii) : bool :=
  ((char_code c =? 101) || (char_code c =? 69))%N.

(** [strtod]: sign, digits with an optional point, optional exponent.
    [None] when no number starts the text; otherwise the float and what
    follows the number. *)
Definition strtod (s : string) : option (float * string) :=
  let '(neg, s1) := parse_sign s in
  let '(ip, s2) := span_digits s1 in
  let '(fp, s3) :=
    match s2 with
    | String c r => if (char_code c =? 46)%N then span_digits r else (EmptyString, s2)
    | EmptyString => (EmptyString, s2)
    end in
  if (String.length ip + String.length fp =? 0)%nat then None
  else
    let '(ex, s4) :=
      match s3 with
      | String c r =>
          if is_exp_mark c then
            let '(eneg, r1) := parse_sign r in
            let '(ed, r2) := span_digits r1 in
            if (String.length ed =? 0)%nat then (0, s3)
            else ((if eneg then - digits_value 0 ed else digits_value 0 ed), r2)
          else (0, s3)
      | EmptyString => (0, s3)
      end in
    Some (float_of_decimal neg (digits_value 0 (ip ++ fp))
                           (ex - Z.of_nat (String.length fp)), s4).

(** Case-insensitive prefix: [Some rest] when [s] starts with [p]. *)
Fixpoint strip_prefix_ci (p s : string) : option string :=
  match p, s with
  | EmptyString, _ => Some s
  | String a p', String b s' =>
      if Ascii.eqb a (char_lower b) then strip_prefix_ci p' s' else None
  | _, EmptyString => None
  end.

Definition parse_inf_or_nan (s : string) : option (float * string) :=
  let '(neg, s1) := parse_sign s in
  match strip_prefix_ci "inf" s1 with
  | Some r =>
      match strip_prefix_ci "inity" r with
      | Some r' => Some (S754_infinity neg, r')
      | None => Some (S754_infinity neg, r)
      end
  | None =>
      match strip_prefix_ci "nan" s1 with
      | Some r => Some (S754_nan, r)
      | None => None
      end
  end.

(** [None] stands for the [ValueError]. *)
Definition float_of_string (s : string) : option float :=
  let t := rstrip_by is_c_space (lstrip_by is_c_space s) in
  match drop_underscores "000"%char t with
  | None => None
  | Some u =>
      match strtod u with
      | Some (x, EmptyString) => Some x
      | Some _ => None
      | None =>
          match parse_inf_or_nan u with
          | Some (x, EmptyString) => Some x
          | _ => None
          end
      end
  end.

(** ** [repr(x)] of a float: the shortest decimal that reads back as [x]
    (Python/dtoa.c mode 0, formatted by [float_repr_style = 'short']) *)

Section ShortestDigits.
Variables (m : positive) (e : Z).

Let v : Q := inject_Z (Zpos m) * pow2 e.
(** Half-way points to the neighbouring floats. *)
Let hi : Q := inject_Z (2 * Zpos m + 1) * pow2 (e - 1).
Let lo : Q :=
  if (Zpos m =? 2 ^ 52) && (e >? -1074)
  then inject_Z (4 * Zpos m - 1) * pow2 (e - 2)
  else inject_Z (2 * Zpos m - 1) * pow2 (e - 1).

(** The decimals that [strtod] reads back as this float. *)
Definition reads_back (q : Q) : bool :=
  if Z.even (Zpos m) then Qle_bool lo q && Qle_bool q hi
  else Qltb lo q && Qltb q hi.

(** The [k] with [10^(k-1) <= v < 10^k]. *)
Fixpoint decimal_exponent (fuel : nat) (k : Z) : Z :=
  match fuel with
  | O => k
  | S fuel' =>
      if Qltb v (pow10 k) then
        if Qle_bool (pow10 (k - 1)) v then k else decimal_exponent fuel' (k - 1)
      else decimal_exponent fuel' (k + 1)
  end.

(** With [n] digits: the neighbour of [v] on the grid [10^p] that reads
    back, the nearer one when both do. *)
Definition candidate (p : Z) : option Z :=
  let c := Qfloor (v * pow10 (- p))%Q in
  let ql := (inject_Z c * pow10 p)%Q in
  let qh := (inject_Z (c + 1) * pow10 p)%Q in
  match reads_back ql, reads_back qh with
  | true, true => if Qle_bool (v - ql)%Q (qh - v)%Q then Some c else Some (c + 1)
  | true, false => Some c
  | false, true => Some (c + 1)
  | false, false => None
  end.

Fixpoint shortest (k : Z) (fuel : nat) (n : Z) : Z * Z :=
  match fuel with
  | O => (Zpos m, e)
  | S fuel' =>
      match candidate (k - n) with
      | Some c => (c, k - n)
      | None => shortest k fuel' (n + 1)
      end
  end.

(** The digits [c] and the exponent [p]: the float prints as [c * 10^p]. *)
Definition shortest_decimal : Z * Z :=
  shortest (decimal_exponent 800 (((Z.log2 (Zpos m) + e) * 30103) / 100000)) 17 1.
End ShortestDigits.

Fixpoint strip_trailing_zeros (fuel : nat) (c p : Z) : Z * Z :=
  match fuel with
  | O => (c, p)
  | S fuel' => if (c mod 10 =? 0) && negb (c =? 0)
               then strip_trailing_zeros fuel' (c / 10) (p + 1) else (c, p)
  end.

Fixpoint str_repeat (c : ascii) (n : nat) : string :=
  match n with
  | O => EmptyString
  | S n' => String c (str_repeat c n')
  end.

Definition str_take (n : nat) (s : string) : string := substring 0 n s.
Definition str_drop (n : nat) (s : string) : string := substring n (String.length s - n) s.

(** Layout of [repr]: exponent form when [decpt <= -4] or [decpt > 16]. *)
Definition format_float_short (digits : string) (decpt : Z) : string :=
  let n := Z.of_nat (String.length digits) in
  if (decpt <=? -4) || (decpt >? 16) then
    let ex := decpt - 1 in
    let mant := match digits with
                | String d EmptyString => digits
                | String d rest => String d ("." ++ rest)
                | EmptyString => digits
                end in
    let ed := str_of_Z (Z.abs ex) in
    mant ++ "e" ++ (if ex <? 0 then "-" else "+")
         ++ (if Z.abs ex <? 10 then "0" ++ ed else ed)
  else if decpt <=? 0 then
    "0." ++ str_repeat "0"%char (Z.to_nat (- decpt)) ++ digits
  else if n <=? decpt then
    digits ++ str_repeat "0"%char (Z.to_nat (decpt - n)) ++ ".0"
  else
    str_take (Z.to_nat decpt) digits ++ "." ++ str_drop (Z.to_nat decpt) digits.

Definition float_repr_finite (m : positive) (e : Z) : string :=
  let '(c, p) := shortest_decimal m e in
  let '(c', p') := strip_trailing_zeros 20 c p in
  let digits := str_of_Z c' in
  format_float_short digits (Z.of_nat (String.length digits) + p').

Definition float_repr (x : float) : string :=
  match x with
  | S754_nan => "nan"
  | S754_infinity s => if s then "-inf" else "inf"
  | S754_zero s => if s then "-0.0" else "0.0"
  | S754_finite s m e => (if s then "-" else "") ++ float_repr_finite m e
  end.

(** ** Truth value, [float(v)], [repr(v)], [str(v)] and [json.dumps(v)] *)

(** [bool(v)] *)
Definition truthy (v : PyVal) : bool :=
  match v with
  | PyNone => false
  | PyBool b => b
  | PyInt z => negb (z =? 0)
  | PyFloat (S754_zero _) => false
  | PyFloat _ => true
  | PyStr s => negb (String.eqb s "")
  | PyList l => match l with [] => false | _ => true end
  | PyDict d => match d with [] => false | _ => true end
  end.

(** [a or b] *)
Definition py_or (a b : PyVal) : PyVal := if truthy a then a else b.

(** [float(v)]; [None] stands for the [TypeError], [ValueError] or
    [OverflowError] that the conversion raises. *)
Definition py_float (v : PyVal) : option float :=
  match v with
  | PyFloat f => Some f
  | PyInt z => match float_of_int z with Ok f => Some f | Raise _ => None end
  | PyBool b => Some (float_of_Z (if b then 1 else 0))
  | PyStr s => float_of_string s
  | PyNone | PyList _ | PyDict _ => None
  end.

Definition hex_digit (n : N) : ascii :=
  if (n <? 10)%N then ascii_of_N (48 + n) else ascii_of_N (87 + n).

Definition quote1 : ascii := "039"%char.
Definition quote2 : ascii := "034"%char.
Definition backslash : ascii := "092"%char.

Fixpoint str_contains (c : ascii) (s : string) : bool :=
  match s with
  | EmptyString => false
  | String c' r => Ascii.eqb c c' || str_contains c r
  end.

Definition repr_char (q c : ascii) : string :=
  let n := char_code c in
  if Ascii.eqb c q || Ascii.eqb c backslash then String backslash (String c "")
  else if (n =? 9)%N then String backslash "t"
  else if (n =? 10)%N then String backslash "n"
  else if (n =? 13)%N then String backslash "r"
  else if (n <? 32)%N || (n =? 127)%N
  then String backslash (String "x" (String (hex_digit (n / 16)) (String (hex_digit (n mod 16)) "")))
  else String c "".

Fixpoint str_concat_map (f : ascii -> string) (s : string) : string :=
  match s with
  | EmptyString => EmptyString
  | String c r => f c ++ str_concat_map f r
  end.

(** [repr(s)] of a string. *)
Definition str_repr (s : string) : string :=
  let q := if str_contains quote1 s && negb (str_contains quote2 s) then quote2 else quote1 in
  String q (str_concat_map (repr_char q) s) ++ String q "".

Fixpoint py_repr (v : PyVal) : string :=
  match v with
  | PyNone => "None"
  | PyBool b => if b then "True" else "False"
  | PyInt z => str_of_Z z
  | PyFloat f => float_repr f
  | PyStr s => str_repr s
  | PyList l => "[" ++ str_join ", " (map py_repr l) ++ "]"
  | PyDict d =>
      "{" ++ str_join ", " (map (fun '(k, x) => str_repr k ++ ": " ++ py_repr x) d) ++ "}"
  end.

(** [str(v)], which is what an f-string and [print] apply. *)
Definition py_str (v : PyVal) : string :=
  match v with
  | PyStr s => s
  | _ => py_repr v
  end.

(** [json.dumps(v, ensure_ascii=False)] *)
Definition json_char (c : ascii) : string :=
  let n := char_code c in
  if Ascii.eqb c quote2 || Ascii.eqb c backslash then String backslash (String c "")
  else if (n =? 8)%N then String backslash "b"
  else if (n =? 9)%N then String backslash "t"
  else if (n =? 10)%N then String backslash "n"
  else if (n =? 12)%N then String backslash "f"
  else if (n =? 13)%N then String backslash "r"
  else if (n <? 32)%N
  then String backslash ("u00" ++ String (hex_digit (n / 16)) (String (hex_digit (n mod 16)) ""))
  else String c "".

Definition json_string (s : string) : string :=
  String quote2 (str_concat_map json_char s) ++ String quote2 "".

Definition json_float (x : float) : string :=
  match x with
  | S754_nan => "NaN"
  | S754_infinity s => if s then "-Infinity" else "Infinity"
  | _ => float_repr x
  end.

Fixpoint json_dumps (v : PyVal) : string :=
  match v with
  | PyNone => "null"
  | PyBool b => if b then "true" else "false"
  | PyInt z => str_of_Z z
  | PyFloat f => json_float f
  | PyStr s => json_string s
  | PyList l => "[" ++ str_join ", " (map json_dumps l) ++ "]"
  | PyDict d =>
      "{" ++ str_join ", " (map (fun '(k, x) => json_string k ++ ": " ++ json_dumps x) d) ++ "}"
  end.

End Py.

(** ** The currency tools *)

Module CurrencyTools.
Import Py.
Local Open Scope py_scope.

(** Mock data *)
Definition RATE_TABLE : list (string * float) :=
  [ ("USD->THB", float_of_decimal false 350 (-1));
    ("THB->USD", float_of_decimal false 286 (-4));
    ("THB->EUR", float_of_decimal false 25 (-3));
    ("EUR->THB", float_of_decimal false 400 (-1));
    ("USD->EUR", float_of_decimal false 92 (-2));
    ("EUR->USD", float_of_decimal false 1087 (-3)) ].

Definition SUPPORTED : list string := ["USD"; "THB"; "EUR"; "JPY"].

Definition NAME_TO_ISO : list (string * string) :=
  [("baht", "THB"); ("dollar", "USD"); ("euro", "EUR"); ("yen", "JPY")].

(** [SUPPORTED] as the value handed to a caller. *)
Definition SUPPORTED_val : PyVal := PyList (map PyStr SUPPORTED).

(** Tool 1: [list_supported] *)
Definition list_supported : PyVal := SUPPORTED_val.

(** [v.strip()]: only a [str] has the method. *)
Definition call_strip (v : PyVal) : Result string :=
  match v with
  | PyStr s => Ok (str_strip s)
  | _ => Raise (AttributeError v "strip")
  end.

(** Tool 2: [resolve_currency] *)
Definition resolve_currency (name_or_code : PyVal) : Result string :=
  stripped <- call_strip (py_or name_or_code (PyStr ""));;
  let code := str_upper stripped in
  if mem code SUPPORTED then Ok code
  else
    stripped' <- call_strip (py_or name_or_code (PyStr ""));;
    Ok (match dict_get NAME_TO_ISO (str_lower stripped') with
        | Some iso => iso
        | None => "UNKNOWN"
        end).

(** Tool 3: [convert] *)
Definition convert (amount base quote : PyVal) : Result PyVal :=
  match py_float amount with
  | None => Ok (PyDict [("error", PyStr ("Invalid amount: " ++ py_str amount))])
  | Some amt =>
      base_resolved <- resolve_currency base;;
      quote_resolved <- resolve_currency quote;;
      if String.eqb base_resolved "UNKNOWN" || String.eqb quote_resolved "UNKNOWN" then
        Ok (PyDict [("error", PyStr "UNKNOWN_CURRENCY");
                    ("hint", PyDict [("supported", SUPPORTED_val);
                                     ("base", base); ("quote", quote)])])
      else
        let pair := base_resolved ++ "->" ++ quote_resolved in
        match dict_get RATE_TABLE pair with
        | None =>
            Ok (PyDict [("error", PyStr ("No rate for " ++ pair));
                        ("supported_pairs",
                         PyList (map PyStr (sorted (dict_keys RATE_TABLE))))])
        | Some rate =>
            converted <- py_round (float_mul amt rate) 4;;
            Ok (PyDict [("amount", PyFloat amt);
                        ("base", PyStr base_resolved);
                        ("quote", PyStr quote_resolved);
                        ("rate", PyFloat rate);
                        ("converted", PyFloat converted)])
        end
  end.

(** The schemas of the three tools (OpenAI function format). *)
Definition obj (d : list (string * PyVal)) : PyVal := PyDict d.
Definition typ (t : string) : PyVal := obj [("type", PyStr t)].

Definition get_schemas : list PyVal :=
  [ obj [("name", PyStr "list_supported");
         ("description", PyStr "Return supported currency ISO codes");
         ("parameters", obj [("type", PyStr "object"); ("properties", obj [])])];
    obj [("name", PyStr "resolve_currency");
         ("description",
          PyStr "Map currency name or code to ISO code (e.g., 'baht'->'THB')");
         ("parameters",
          obj [("type", PyStr "object");
               ("properties", obj [("name_or_code", typ "string")]);
               ("required", PyList [PyStr "name_or_code"])])];
    obj [("name", PyStr "convert");
         ("description", PyStr "Convert amount from base to quote using fixed RATE_TABLE");
         ("parameters",
          obj [("type", PyStr "object");
               ("properties", obj [("amount", typ "number");
                                   ("base", typ "string");
                                   ("quote", typ "string")]);
               ("required", PyList [PyStr "amount"; PyStr "base"; PyStr "quote"])])] ].

(** The names under ["parameters"]["required"] of a schema; none when the
    schema has no such entry. *)
Definition schema_required (schema : PyVal) : list string :=
  match schema with
  | PyDict d =>
      match dict_get d "parameters" with
      | Some (PyDict p) =>
          match dict_get p "required" with
          | Some (PyList l) =>
              flat_map (fun v => match v with PyStr n => [n] | _ => [] end) l
          | _ => []
          end
      | _ => []
      end
  | _ => []
  end.

(** *** The methods as callables, called with keyword arguments only

    A call binds the keyword arguments to the parameters after [self]; a
    keyword that is no parameter, or a parameter without a keyword, is a
    [TypeError]. *)
Definition Callable : Type := list (string * PyVal) -> Result PyVal.

Definition bind_arguments (callee : string) (params : list string)
    (kwargs : list (string * PyVal)) : Result (list PyVal) :=
  if forallb (fun k => mem k params) (dict_keys kwargs)
     && forallb (fun p => mem p (dict_keys kwargs)) params
  then Ok (map (fun p => match dict_get kwargs p with Some v => v | None => PyNone end) params)
  else Raise (TypeError_arguments callee params kwargs).

Definition call_list_supported : Callable := fun kwargs =>
  _ <- bind_arguments "CurrencyTools.list_supported" [] kwargs;;
  Ok list_supported.

Definition call_resolve_currency : Callable := fun kwargs =>
  args <- bind_arguments "CurrencyTools.resolve_currency" ["name_or_code"] kwargs;;
  match args with
  | [name_or_code] => iso <- resolve_currency name_or_code;; Ok (PyStr iso)
  | _ => Raise (TypeError_arguments "CurrencyTools.resolve_currency" ["name_or_code"] kwargs)
  end.

Definition call_convert : Callable := fun kwargs =>
  args <- bind_arguments "CurrencyTools.convert" ["amount"; "base"; "quote"] kwargs;;
  match args with
  | [amount; base; quote] => convert amount base quote
  | _ => Raise (TypeError_arguments "CurrencyTools.convert" ["amount"; "base"; "quote"] kwargs)
  end.

Definition call_get_schemas : Callable := fun kwargs =>
  _ <- bind_arguments "CurrencyTools.get_schemas" [] kwargs;;
  Ok (PyList get_schemas).

(** A tool object: its schema list and its attributes by name
    ([hasattr] / [getattr]). *)
Record ToolObject : Type := {
  obj_schemas : list PyVal;
  obj_attrs : list (string * Callable)
}.

Definition tools_object : ToolObject :=
  {| obj_schemas := get_schemas;
     obj_attrs := [("list_supported", call_list_supported);
                   ("resolve_currency", call_resolve_currency);
                   ("convert", call_convert);
                   ("get_schemas", call_get_schemas)] |}.

End CurrencyTools.

(** ** The tool executor *)

Module ToolExecutor.
Import Py CurrencyTools.
Local Open Scope py_scope.

(** The function call a provider response may carry.  Either attribute may
    hold [None]. *)
Record ToolCall : Type := {
  name : option string;
  arguments : option string
}.

(** [resp.choices[0].message] *)
Record Message : Type := {
  content : option string;
  function_call : option ToolCall
}.

Definition opt_str (o : option string) : PyVal :=
  match o with
  | Some s => PyStr s
  | None => PyNone
  end.

(** What one call of [completion] sends. *)
Record Request : Type := {
  req_model : string;
  req_messages : list PyVal;
  req_functions : list PyVal;
  req_function_call : string;
  req_temperature : float
}.

Record Executor : Type := {
  tools : list (string * Callable);
  tool_schemas : list PyVal
}.

(** [__init__] *)
Definition new_executor : Executor := {| tools := []; tool_schemas := [] |}.

Definition register_tool (self : Executor) (name : string) (func : Callable)
    (schema : PyVal) : Executor :=
  {| tools := dict_set (tools self) name func;
     tool_schemas := tool_schemas self ++ [schema] |}.

(** [schema["name"]] as an attribute name *)
Definition schema_name (schema : PyVal) : Result string :=
  match schema with
  | PyDict d =>
      match dict_get d "name" with
      | Some (PyStr n) => Ok n
      | Some _ => Raise (TypeError_other "attribute name must be string")
      | None => Raise (KeyError (PyStr "name"))
      end
  | _ => Raise (TypeError_other "schema is not subscriptable by a string")
  end.

Fixpoint register_schemas (tool_obj : ToolObject) (schemas : list PyVal)
    (self : Executor) : Result Executor :=
  match schemas with
  | [] => Ok self
  | schema :: rest =>
      n <- schema_name schema;;
      match dict_get (obj_attrs tool_obj) n with
      | None => register_schemas tool_obj rest self
      | Some func => register_schemas tool_obj rest (register_tool self n func schema)
      end
  end.

Definition register_tools (self : Executor) (tool_obj : ToolObject) : Result Executor :=
  register_schemas tool_obj (obj_schemas tool_obj) self.

(** [hasattr(tool_obj, schema["name"])] *)
Definition registrable (tool_obj : ToolObject) (schema : PyVal) : bool :=
  match schema_name schema with
  | Ok n =>
      match dict_get (obj_attrs tool_obj) n with
      | Some _ => true
      | None => false
      end
  | Raise _ => false
  end.

(** Every schema offered to the provider names a tool of the registry. *)
Definition consistent (self : Executor) : Prop :=
  forall schema : PyVal,
    In schema (tool_schemas self) ->
    exists (n : string) (func : Callable),
      schema_name schema = Ok n /\ dict_get (tools self) n = Some func.

(** The text that is decoded: the arguments, or "{}" in their absence. *)
Definition arguments_text (fc : ToolCall) : string :=
  match arguments fc with
  | Some s => if String.eqb s "" then "{}" else s
  | None => "{}"
  end.

(** How a run ends: the turns are used up, the provider answers, or the
    provider raises. *)
Inductive Ending : Type :=
| Exhausted
| Answered (msg : Message)
| Failed (e : PyExn).

(** What a run leaves behind: the conversation, the printed lines and the
    requests sent to the provider, oldest first. *)
Record RunState : Type := {
  messages : list PyVal;
  stdout : list string;
  requests : list Request
}.

Definition print (st : RunState) (args : list PyVal) : RunState :=
  {| messages := messages st;
     stdout := stdout st ++ [str_join " " (map py_str args)];
     requests := requests st |}.

Definition append_message (st : RunState) (m : PyVal) : RunState :=
  {| messages := messages st ++ [m];
     stdout := stdout st;
     requests := requests st |}.

Definition sent (st : RunState) (r : Request) : RunState :=
  {| messages := messages st;
     stdout := stdout st;
     requests := requests st ++ [r] |}.

(** [range(lo, hi)] *)
Definition py_range (lo hi : Z) : list Z :=
  map (fun i => lo + Z.of_nat i) (seq 0 (Z.to_nat (hi - lo))).

Section Run.

(** The completion provider: the answer to the [n]-th request of a run. *)
Variable completion : nat -> Request -> Result Message.
(** [json.loads] *)
Variable json_loads : string -> Result PyVal.
(** [str(e)] *)
Variable exn_str : PyExn -> string.

Variable self : Executor.

(** [json.loads(v)] on a value *)
Definition loads (v : PyVal) : Result PyVal :=
  match v with
  | PyStr s => json_loads s
  | _ => Raise (TypeError_other "the JSON object must be str, bytes or bytearray")
  end.

(** [self.tools[name]] *)
Definition tools_getitem (n : option string) : Result Callable :=
  match n with
  | Some k =>
      match dict_get (tools self) k with
      | Some f => Ok f
      | None => Raise (KeyError (PyStr k))
      end
  | None => Raise (KeyError PyNone)
  end.

(** Unpacking [args] as keyword arguments *)
Definition unpack_mapping (n : option string) (args : PyVal)
    : Result (list (string * PyVal)) :=
  match args with
  | PyDict d => Ok d
  | _ => Raise (TypeError_not_mapping (py_str (opt_str n)) args)
  end.

(** The body of the [try] block. *)
Definition invoke (fc : ToolCall) : Result PyVal :=
  args <- loads (py_or (opt_str (arguments fc)) (PyStr "{}"));;
  let n := name fc in
  if truthy args then
    func <- tools_getitem n;;
    kwargs <- unpack_mapping n args;;
    func kwargs
  else
    func <- tools_getitem n;;
    func [].

(** The [try] / [except Exception as e] statement. *)
Definition execute_tool (fc : ToolCall) : PyVal :=
  try_except (invoke fc) (fun e => PyDict [("error", PyStr (exn_str e))]).

Definition assistant_turn (fc : ToolCall) : PyVal :=
  PyDict [("role", PyStr "assistant");
          ("content", PyNone);
          ("function_call", PyDict [("name", opt_str (name fc));
                                    ("arguments", opt_str (arguments fc))])].

Definition function_turn (fc : ToolCall) (result : PyVal) : PyVal :=
  PyDict [("role", PyStr "function");
          ("name", opt_str (name fc));
          ("content", PyStr (json_dumps result))].

(** The two turns that a tool call adds to the conversation. *)
Definition tool_turns (fc : ToolCall) : list PyVal :=
  [assistant_turn fc; function_turn fc (execute_tool fc)].

(** The conversation after the tool calls [fcs], from the messages [ms]. *)
Definition conversation (ms : list PyVal) (fcs : list ToolCall) : list PyVal :=
  (ms ++ flat_map tool_turns fcs)%list.

(** The three lines printed before a tool is executed. *)
Definition intermediate_lines (turn : Z) (fc : ToolCall) : list string :=
  [("=== INTERMEDIATE (turn " ++ str_of_Z turn ++ ") ===")%string;
   ("name: " ++ py_str (opt_str (name fc)))%string;
   ("arguments: " ++ py_str (opt_str (arguments fc)))%string].

(** The lines printed for the tool calls [fcs] at the turns [turns]. *)
Fixpoint trace_lines (turns : list Z) (fcs : list ToolCall) : list string :=
  match turns, fcs with
  | turn :: turns', fc :: fcs' => (intermediate_lines turn fc ++ trace_lines turns' fcs')%list
  | _, _ => []
  end.

Section Loop.
Variables (model : string) (temperature : float).

(** The request that carries the messages [ms]. *)
Definition request_for (ms : list PyVal) : Request :=
  {| req_model := model;
     req_messages := ms;
     req_functions := tool_schemas self;
     req_function_call := "auto";
     req_temperature := temperature |}.

Definition request_of (st : RunState) : Request :=
  {| req_model := model;
     req_messages := messages st;
     req_functions := tool_schemas self;
     req_function_call := "auto";
     req_temperature := temperature |}.

(** The [for turn in ...] loop from a given state. *)
Fixpoint loop (turns : list Z) (st : RunState) : Result unit * RunState :=
  match turns with
  | [] => (Ok tt, st)
  | turn :: rest =>
      let req := request_of st in
      let resp := completion (List.length (requests st)) req in
      let st := sent st req in
      match resp with
      | Raise e => (Raise e, st)
      | Ok msg =>
          match function_call msg with
          | None =>
              (Ok tt,
               print st [PyStr "FINAL:";
                         py_or (opt_str (content msg)) (opt_str (content msg))])
          | Some fc =>
              let st := print st [PyStr ("=== INTERMEDIATE (turn " ++ str_of_Z turn ++ ") ===")] in
              let st := print st [PyStr "name:"; opt_str (name fc)] in
              let st := print st [PyStr "arguments:"; opt_str (arguments fc)] in
              let result := execute_tool fc in
              let st := append_message st (assistant_turn fc) in
              let st := append_message st (function_turn fc result) in
              loop rest st
          end
      end
  end.

(** The state in which a tool-calling iteration leaves the loop. *)
Definition after_tool_call (turn : Z) (fc : ToolCall) (st : RunState) : RunState :=
  {| messages := (messages st ++
                  [assistant_turn fc; function_turn fc (execute_tool fc)])%list;
     stdout := (stdout st ++
                [("=== INTERMEDIATE (turn " ++ str_of_Z turn ++ ") ===")%string;
                 ("name: " ++ py_str (opt_str (name fc)))%string;
                 ("arguments: " ++ py_str (opt_str (arguments fc)))%string])%list;
     requests := (requests st ++ [request_of st])%list |}.

(** The text printed after "FINAL:". *)
Definition final_text (msg : Message) : string :=
  match content msg with
  | Some text => text
  | None => "None"
  end.

(** What [run] returns or raises, the line it prints last and the number
    of requests it has sent, by the way it ends after some tool calls. *)
Definition outcome (ending : Ending) : Result unit :=
  match ending with
  | Failed e => Raise e
  | _ => Ok tt
  end.

Definition final_lines (ending : Ending) : list string :=
  match ending with
  | Answered msg => [("FINAL: " ++ final_text msg)%string]
  | _ => []
  end.

Definition request_count (fcs : list ToolCall) (ending : Ending) : nat :=
  match ending with
  | Exhausted => List.length fcs
  | _ => S (List.length fcs)
  end.

(** The requests of a run that starts from the messages [ms]: the [k]-th
    carries the conversation after the first [k] tool calls. *)
Definition requests_of (ms : list PyVal) (fcs : list ToolCall) (ending : Ending)
    : list Request :=
  map (fun k => request_for (conversation ms (firstn k fcs)))
      (seq 0 (request_count fcs ending)).

(** What the provider was asked and what it answered, for a run that made
    the tool calls [fcs] from the state [st] and ended with [ending]. *)
Definition answered_by (st : RunState) (turns : list Z)
    (fcs : list ToolCall) (ending : Ending) : Prop :=
  (forall k fc, nth_error fcs k = Some fc ->
     exists msg,
       completion (List.length (requests st) + k)
                  (request_for (conversation (messages st) (firstn k fcs))) = Ok msg /\
       function_call msg = Some fc) /\
  match ending with
  | Exhausted => List.length fcs = List.length turns
  | Answered msg =>
      (List.length fcs < List.length turns)%nat /\
      completion (List.length (requests st) + List.length fcs)
                 (request_for (conversation (messages st) fcs)) = Ok msg /\
      function_call msg = None
  | Failed e =>
      (List.length fcs < List.length turns)%nat /\
      completion (List.length (requests st) + List.length fcs)
                 (request_for (conversation (messages st) fcs)) = Raise e
  end.

End Loop.

Definition initial_state (user_text : string) : RunState :=
  {| messages := [PyDict [("role", PyStr "user"); ("content", PyStr user_text)]];
     stdout := [];
     requests := [] |}.

Definition run (user_text : string) (model : string) (max_turns : Z)
    (temperature : float) : Result unit * RunState :=
  loop model temperature (py_range 1 (max_turns + 1)) (initial_state user_text).

End Run.

(** The defaults of [run]; the default model comes from [config.MODEL]. *)
Definition default_max_turns : Z := 6.
Definition default_temperature : float := float_of_decimal false 2 (-1).

End ToolExecutor.

(** ** Worked examples: an executor with the currency tools registered,
    and instances of the external services

    The properties below hold for every provider, every decoder and every
    rendering of exceptions.  The instances here only serve to run the
    loop on concrete conversations. *)

Module Sample.
Import Py CurrencyTools ToolExecutor.

(** [ex = ToolExecutor(); ex.register_tools(CurrencyTools())] *)
Definition ex : Executor :=
  match register_tools new_executor tools_object with
  | Ok e => e
  | Raise _ => new_executor
  end.

Definition dq : string := String quote2 "".

(** The argument text of a call to [resolve_currency] with the number 5. *)
Definition args_resolve_5 : string := "{" ++ dq ++ "name_or_code" ++ dq ++ ": 5}".

(** The argument text of the first demo: 100 USD to THB. *)
Definition args_convert_100 : string :=
  "{" ++ dq ++ "amount" ++ dq ++ ": 100, "
      ++ dq ++ "base" ++ dq ++ ": " ++ dq ++ "USD" ++ dq ++ ", "
      ++ dq ++ "quote" ++ dq ++ ": " ++ dq ++ "THB" ++ dq ++ "}".

(** [json.loads] on the texts that the examples pass to it: the three
    argument texts, and "oops", which is not JSON and fails at its first
    character. *)
Definition json_loads (s : string) : Result PyVal :=
  if String.eqb s "{}" then Ok (PyDict [])
  else if String.eqb s args_resolve_5 then Ok (PyDict [("name_or_code", PyInt 5)])
  else if String.eqb s args_convert_100
  then Ok (PyDict [("amount", PyInt 100); ("base", PyStr "USD"); ("quote", PyStr "THB")])
  else Raise (JSONDecodeError s).

Definition type_name (v : PyVal) : string :=
  match v with
  | PyNone => "NoneType"
  | PyBool _ => "bool"
  | PyInt _ => "int"
  | PyFloat _ => "float"
  | PyStr _ => "str"
  | PyList _ => "list"
  | PyDict _ => "dict"
  end.

Definition quoted (s : string) : string := "'" ++ s ++ "'".

(** "'a'", "'a' and 'b'", "'a', 'b', and 'c'" *)
Fixpoint name_list (names : list string) : string :=
  match names with
  | [] => ""
  | [a] => quoted a
  | [a; b] => quoted a ++ " and " ++ quoted b
  | a :: rest =>
      quoted a ++ ", " ++
      match rest with
      | [b; c] => quoted b ++ ", and " ++ quoted c
      | _ => name_list rest
      end
  end.

(** The message of a failed binding: the first keyword that is no
    parameter, else the parameters left without a value. *)
Definition binding_message (callee : string) (params : list string)
    (kwargs : list (string * PyVal)) : string :=
  match filter (fun k => negb (mem k params)) (dict_keys kwargs) with
  | k :: _ =>
      if String.eqb k "self"
      then callee ++ "() got multiple values for argument 'self'"
      else callee ++ "() got an unexpected keyword argument " ++ quoted k
  | [] =>
      let missing := filter (fun p => negb (mem p (dict_keys kwargs))) params in
      let n := Z.of_nat (List.length missing) in
      callee ++ "() missing " ++ str_of_Z n ++ " required positional argument"
             ++ (if n =? 1 then "" else "s") ++ ": " ++ name_list missing
  end.

(** [str(e)] as CPython 3.11 words it, the script being run as the main
    module. *)
Definition exn_str (e : PyExn) : string :=
  match e with
  | JSONDecodeError _ => "Expecting value: line 1 column 1 (char 0)"
  | KeyError k => py_repr k
  | AttributeError v attr =>
      "'" ++ type_name v ++ "' object has no attribute '" ++ attr ++ "'"
  | TypeError_not_mapping callee v =>
      "__main__.CurrencyTools." ++ callee
        ++ "() argument after ** must be a mapping, not " ++ type_name v
  | TypeError_arguments callee params kwargs => binding_message callee params kwargs
  | TypeError_other what => what
  | OverflowError what => what
  | ProviderError what => what
  end.

Definition call (n : string) (a : option string) : Message :=
  {| content := None;
     function_call := Some {| name := Some n; arguments := a |} |}.

Definition answer (text : string) : Message :=
  {| content := Some text; function_call := None |}.

(** A provider that answers at once. *)
Definition completion_answer : nat -> Request -> Result Message :=
  fun _ _ => Ok (answer "Which currencies?").

(** A provider that asks for the conversion of the first demo, then
    answers. *)
Definition completion_demo : nat -> Request -> Result Message :=
  fun n _ =>
    match n with
    | O => Ok (call "convert" (Some args_convert_100))
    | _ => Ok (answer "100 USD is 3500 THB.")
    end.

(** A provider that sends malformed arguments, then a number where a
    currency name belongs, then answers. *)
Definition completion_faulty : nat -> Request -> Result Message :=
  fun n _ =>
    match n with
    | O => Ok (call "list_supported" (Some "oops"))
    | S O => Ok (call "resolve_currency" (Some args_resolve_5))
    | _ => Ok (answer "Sorry.")
    end.

(** A provider that asks for [list_supported] for ever. *)
Definition completion_loop : nat -> Request -> Result Message :=
  fun _ _ => Ok (call "list_supported" None).

Definition MODEL : string := "model".

(** The first demo: "Convert 100 USD to THB". *)
Definition demo_run : Result unit * RunState :=
  run completion_demo json_loads exn_str ex "Convert 100 USD to THB" MODEL
      default_max_turns default_temperature.

(** The second request of the demo: the conversation with the tool result. *)
Definition demo_second_request : Request :=
  request_of ex MODEL default_temperature
    (after_tool_call json_loads exn_str ex MODEL default_temperature 1
       {| name := Some "convert"; arguments := Some args_convert_100 |}
       (initial_state "Convert 100 USD to THB")).

End Sample.

(** Further instances for the worked examples. *)
Module Sample2.
Import Py CurrencyTools ToolExecutor.

(** [json.loads] on the texts "null" and "[1]" besides those of
    [Sample.json_loads]. *)
Definition json_loads (s : string) : Result PyVal :=
  if String.eqb s "null" then Ok PyNone
  else if String.eqb s "[1]" then Ok (PyList [PyInt 1])
  else Sample.json_loads s.


End Sample2.

(** * Properties *)

Import Py CurrencyTools ToolExecutor.

(** ** Sanity of the arithmetic and of the text renderings

    The rates as binary64 values (mantissa and exponent), the product and
    rounding of the second demo, and the text of floats, strings and
    results. *)

Example rate_THB_USD_binary64 :
  dict_get RATE_TABLE "THB->USD" = Some (S754_finite false 8243388757938956 (-58)).
Proof. vm_compute. reflexivity. Qed.

Example rate_USD_THB_binary64 :
  dict_get RATE_TABLE "USD->THB" = Some (S754_finite false 4925812092436480 (-47)).
Proof. vm_compute. reflexivity. Qed.

Example product_250_0025 :
  float_mul (float_of_decimal false 250 0) (float_of_decimal false 25 (-3)) =
  S754_finite false 7036874417766400 (-50).
Proof. vm_compute. reflexivity. Qed.

Example round_ties_to_even :
  py_round (float_of_decimal false 125 (-3)) 2 = Ok (float_of_decimal false 12 (-2)) /\
  py_round (float_of_decimal false 2675 (-3)) 2 = Ok (float_of_decimal false 267 (-2)) /\
  py_round (float_of_decimal true 1 (-5)) 4 = Ok (S754_zero true).
Proof. vm_compute. auto. Qed.

Example float_of_string_examples :
  float_of_string " 1_000.5e-1 " = Some (float_of_decimal false 10005 (-2)) /\
  float_of_string "-Infinity" = Some (S754_infinity true) /\
  float_of_string "1e400" = Some (S754_infinity false) /\
  float_of_string "1__0" = None /\
  float_of_string "12abc" = None /\
  float_of_string "" = None.
Proof. vm_compute. repeat split. Qed.

Example float_repr_examples :
  float_repr (float_of_decimal false 286 (-4)) = "0.0286" /\
  float_repr (float_of_decimal false 35000 (-1)) = "3500.0" /\
  float_repr (float_of_decimal false 1 16) = "1e+16" /\
  float_repr (float_of_decimal false 15 (-6)) = "1.5e-05" /\
  float_repr (float_mul (float_of_decimal false 1 (-1)) (float_of_decimal false 3 0)) =
    "0.30000000000000004".
Proof. vm_compute. repeat split. Qed.

Example py_str_examples :
  py_str (PyList [PyFloat (float_of_decimal false 15 (-1)); PyStr "a'b"; PyNone;
                  PyDict [("k", PyBool true)]]) =
  "[1.5, " ++ String quote2 "a'b" ++ String quote2 ", None, {'k': True}]".
Proof. vm_compute. reflexivity. Qed.

Example convert_by_names :
  option_map json_dumps
    (match convert (PyStr "250") (PyStr " baht") (PyStr "Euro ") with
     | Ok v => Some v
     | Raise _ => None
     end) =
  Some ("{" ++ Sample.dq ++ "amount" ++ Sample.dq ++ ": 250.0, "
            ++ Sample.dq ++ "base" ++ Sample.dq ++ ": " ++ Sample.dq ++ "THB" ++ Sample.dq ++ ", "
            ++ Sample.dq ++ "quote" ++ Sample.dq ++ ": " ++ Sample.dq ++ "EUR" ++ Sample.dq ++ ", "
            ++ Sample.dq ++ "rate" ++ Sample.dq ++ ": 0.025, "
            ++ Sample.dq ++ "converted" ++ Sample.dq ++ ": 6.25}").
Proof. vm_compute. reflexivity. Qed.

Example convert_raises_on_a_number_for_a_currency :
  convert (PyInt 10) (PyInt 5) (PyStr "ABC") = Raise (AttributeError (PyInt 5) "strip").
Proof. reflexivity. Qed.

(** ** Strings and tables *)

Lemma mem_In (s : string) (l : list string) : mem s l = true <-> In s l.
Proof.
  induction l as [|x l IH]; simpl.
  - split; [discriminate | tauto].
  - rewrite orb_true_iff, IH, String.eqb_eq. split; intros [H|H]; auto.
Qed.

Lemma dict_get_In {V} (d : list (string * V)) (k : string) (v : V) :
  dict_get d k = Some v -> In (k, v) d.
Proof.
  induction d as [|[k' v'] d IH]; simpl; [discriminate|].
  destruct (String.eqb_spec k k') as [->|_].
  - intros [= ->]. now left.
  - intros H. right. now apply IH.
Qed.

(** Every resolution ends in a supported code or in the sentinel. *)
Lemma resolve_currency_range (v : PyVal) (r : string) :
  resolve_currency v = Ok r -> In r ("UNKNOWN" :: SUPPORTED).
Proof.
  unfold resolve_currency, bind.
  destruct (call_strip (py_or v (PyStr ""))) as [t|e]; [|discriminate].
  destruct (mem (str_upper t) SUPPORTED) eqn:Hm.
  - intros [= <-]. right. now apply mem_In.
  - destruct (dict_get NAME_TO_ISO (str_lower t)) as [iso|] eqn:Hd.
    + intros [= <-]. apply dict_get_In in Hd. right.
      unfold NAME_TO_ISO in Hd. simpl in Hd.
      repeat (destruct Hd as [Hd|Hd]; [injection Hd as _ <-; simpl; tauto|]).
      contradiction.
    + intros [= <-]. now left.
Qed.

Ltac each_char c :=
  destruct c as [[] [] [] [] [] [] [] []]; vm_compute; try reflexivity; try discriminate.

Lemma char_upper_lower (c : ascii) : char_upper (char_lower c) = char_upper c.
Proof. each_char c. Qed.

Lemma space_not_letter (c : ascii) :
  is_space c = true -> is_lower (char_lower c) = false.
Proof. each_char c. Qed.

Lemma str_upper_lower (s : string) : str_upper (str_lower s) = str_upper s.
Proof.
  induction s as [|c s IH]; simpl; [reflexivity|].
  unfold str_upper, str_lower in *. simpl. now rewrite char_upper_lower, IH.
Qed.

Lemma eq_ignore_case_lower (a s : string) :
  eq_ignore_case a s = true -> str_lower s = str_lower a.
Proof.
  revert s. induction a as [|x a IH]; intros [|y s]; simpl; try discriminate; auto.
  rewrite andb_true_iff, Ascii.eqb_eq. intros [Hc Hs].
  unfold str_lower in *. simpl. now rewrite Hc, (IH s Hs).
Qed.

Lemma all_letters_no_space (s : string) : all_letters s = true -> no_space s = true.
Proof.
  unfold all_letters, no_space.
  induction s as [|c s IH]; simpl; [reflexivity|].
  rewrite !andb_true_iff. intros [Hc Hs]. split; [|auto].
  destruct (is_space c) eqn:E; [|reflexivity].
  apply space_not_letter in E. unfold is_letter in Hc. congruence.
Qed.

Lemma eq_ignore_case_letters (a s : string) :
  eq_ignore_case a s = true -> all_letters a = true -> all_letters s = true.
Proof.
  unfold all_letters.
  revert s. induction a as [|x a IH]; intros [|y s]; simpl; try discriminate; auto.
  rewrite !andb_true_iff, Ascii.eqb_eq. unfold is_letter. intros [Hc Hs] [Hx Ha].
  rewrite <- Hc. auto.
Qed.

Section Strip.
Variable sp : ascii -> bool.

Lemma lstrip_by_all (w t : string) :
  all_by sp w = true -> lstrip_by sp (w ++ t) = lstrip_by sp t.
Proof.
  induction w as [|c w IH]; simpl; [reflexivity|].
  rewrite andb_true_iff. intros [-> Hw]. auto.
Qed.

Lemma lstrip_by_all_nil (w : string) : all_by sp w = true -> lstrip_by sp w = "".
Proof.
  induction w as [|c w IH]; simpl; [reflexivity|].
  rewrite andb_true_iff. intros [-> Hw]. auto.
Qed.

Lemma rstrip_by_all (w : string) : all_by sp w = true -> rstrip_by sp w = "".
Proof.
  induction w as [|c w IH]; simpl; [reflexivity|].
  rewrite andb_true_iff. intros [-> Hw]. now rewrite IH.
Qed.

Lemma lstrip_by_none (s w : string) :
  none_by sp s = true -> all_by sp w = true ->
  rstrip_by sp (lstrip_by sp (s ++ w)) = rstrip_by sp (s ++ w).
Proof.
  destruct s as [|c s]; simpl.
  - intros _ Hw. rewrite (lstrip_by_all_nil w Hw), (rstrip_by_all w Hw). reflexivity.
  - rewrite andb_true_iff, negb_true_iff. intros [Hc _] _. rewrite Hc. simpl. now rewrite Hc.
Qed.

Lemma rstrip_by_none (s w : string) :
  none_by sp s = true -> all_by sp w = true -> rstrip_by sp (s ++ w) = s.
Proof.
  intros Hs Hw. induction s as [|c s IH]; simpl.
  - now apply rstrip_by_all.
  - simpl in Hs. rewrite andb_true_iff, negb_true_iff in Hs. destruct Hs as [Hc Hs].
    rewrite (IH Hs). destruct s; [now rewrite Hc | reflexivity].
Qed.
End Strip.

(** [strip] removes a whitespace frame around whitespace-free text. *)
Lemma str_strip_frame (w1 s w2 : string) :
  all_space w1 = true -> no_space s = true -> all_space w2 = true ->
  str_strip (w1 ++ s ++ w2) = s.
Proof.
  unfold all_space, no_space, str_strip. intros H1 Hs H2.
  rewrite lstrip_by_all by assumption.
  rewrite lstrip_by_none by assumption.
  now apply rstrip_by_none.
Qed.

Lemma append_nil_r (s : string) : s ++ "" = s.
Proof. induction s as [|c s IH]; simpl; congruence. Qed.

Lemma str_strip_letters (a : string) : all_letters a = true -> str_strip a = a.
Proof.
  intros Ha.
  pose proof (str_strip_frame "" a "" eq_refl (all_letters_no_space a Ha) eq_refl) as E.
  simpl in E. now rewrite append_nil_r in E.
Qed.

Lemma call_strip_or_empty (x : string) :
  call_strip (py_or (PyStr x) (PyStr "")) = Ok (str_strip x).
Proof.
  unfold py_or, truthy. destruct (String.eqb_spec x "") as [->|_]; reflexivity.
Qed.

(** A string resolves through its stripped upper-case and lower-case forms. *)
Lemma resolve_currency_str (x : string) :
  resolve_currency (PyStr x) =
  Ok (if mem (str_upper (str_strip x)) SUPPORTED then str_upper (str_strip x)
      else match dict_get NAME_TO_ISO (str_lower (str_strip x)) with
           | Some iso => iso
           | None => "UNKNOWN"
           end).
Proof.
  unfold resolve_currency. rewrite call_strip_or_empty. unfold bind.
  now destruct (mem (str_upper (str_strip x)) SUPPORTED).
Qed.

(** ** [resolve_currency] *)

(** C8. [resolve_currency] is idempotent: a resolved value resolves to
    itself; each supported ISO code is returned unchanged, also when it
    comes in another letter case or inside whitespace; each known alias, in
    any letter case and inside any whitespace, resolves to its ISO code; and
    [" Baht "] resolves to ["THB"]. *)
Theorem resolve_currency_idempotent :
  (forall (v : PyVal) (r : string),
      resolve_currency v = Ok r -> resolve_currency (PyStr r) = Ok r) /\
  (forall code : string,
      In code SUPPORTED -> resolve_currency (PyStr code) = Ok code) /\
  (forall code w1 s w2 : string,
      In code SUPPORTED ->
      eq_ignore_case code s = true -> all_space w1 = true -> all_space w2 = true ->
      resolve_currency (PyStr (w1 ++ s ++ w2)) = Ok code) /\
  (forall alias iso w1 s w2 : string,
      In (alias, iso) NAME_TO_ISO ->
      eq_ignore_case alias s = true -> all_space w1 = true -> all_space w2 = true ->
      resolve_currency (PyStr (w1 ++ s ++ w2)) = Ok iso) /\
  resolve_currency (PyStr " Baht ") = Ok "THB".
Proof.
  assert (Hvar : forall a w1 s w2, all_letters a = true ->
            eq_ignore_case a s = true -> all_space w1 = true -> all_space w2 = true ->
            resolve_currency (PyStr (w1 ++ s ++ w2)) = resolve_currency (PyStr a)).
  { intros a w1 s w2 Ha Hs H1 H2.
    assert (Hn : no_space s = true)
      by (apply all_letters_no_space; eapply eq_ignore_case_letters; eauto).
    rewrite !resolve_currency_str.
    rewrite (str_strip_frame w1 s w2 H1 Hn H2).
    rewrite (str_strip_letters a Ha).
    rewrite <- (str_upper_lower s), <- (str_upper_lower a).
    now rewrite (eq_ignore_case_lower a s Hs). }
  repeat split.
  - intros v r Hr. apply resolve_currency_range in Hr. simpl in Hr.
    repeat (destruct Hr as [<-|Hr]; [reflexivity|]). contradiction.
  - intros code Hc. simpl in Hc.
    repeat (destruct Hc as [<-|Hc]; [reflexivity|]). contradiction.
  - intros code w1 s w2 Hc Hs H1 H2. simpl in Hc.
    repeat (destruct Hc as [<-|Hc];
            [rewrite (fun H => Hvar _ w1 s w2 H Hs H1 H2) by reflexivity; reflexivity|]).
    contradiction.
  - intros alias iso w1 s w2 Hin Hs H1 H2. simpl in Hin.
    repeat (destruct Hin as [Hin|Hin];
            [injection Hin as <- <-;
             rewrite (fun H => Hvar _ w1 s w2 H Hs H1 H2) by reflexivity; reflexivity|]).
    contradiction.
Qed.

Lemma resolve_currency_idempotent_witness :
  In ("baht", "THB") NAME_TO_ISO /\
  eq_ignore_case "baht" "Baht" = true /\ all_space " " = true /\ all_space " " = true /\
  resolve_currency (PyStr (" " ++ "Baht" ++ " ")) = Ok "THB".
Proof.
  assert (H : In ("baht", "THB") NAME_TO_ISO) by (simpl; auto).
  refine (conj H (conj eq_refl (conj eq_refl (conj eq_refl _)))).
  exact (proj1 (proj2 (proj2 (proj2 resolve_currency_idempotent)))
           "baht" "THB" " " "Baht" " " H eq_refl eq_refl eq_refl).
Defined.

(** ** [convert] *)

Lemma supported_not_unknown (c : string) :
  In c SUPPORTED -> String.eqb c "UNKNOWN" = false.
Proof.
  simpl. intros H. repeat (destruct H as [<-|H]; [reflexivity|]). contradiction.
Qed.

(** The three ways out of [convert] once the amount is a number. *)
Lemma convert_unknown (amount base quote : PyVal) (amt : float) (b q : string) :
  py_float amount = Some amt ->
  resolve_currency base = Ok b -> resolve_currency quote = Ok q ->
  b = "UNKNOWN" \/ q = "UNKNOWN" ->
  convert amount base quote =
  Ok (PyDict [("error", PyStr "UNKNOWN_CURRENCY");
              ("hint", PyDict [("supported", SUPPORTED_val);
                               ("base", base); ("quote", quote)])]).
Proof.
  intros Ha Hb Hq Hu. unfold convert. rewrite Ha, Hb, Hq. unfold bind.
  destruct Hu as [->| ->]; [|rewrite orb_true_r]; reflexivity.
Qed.

Lemma convert_no_rate (amount base quote : PyVal) (amt : float) (b q : string) :
  py_float amount = Some amt ->
  resolve_currency base = Ok b -> resolve_currency quote = Ok q ->
  String.eqb b "UNKNOWN" = false -> String.eqb q "UNKNOWN" = false ->
  dict_get RATE_TABLE (b ++ "->" ++ q) = None ->
  convert amount base quote =
  Ok (PyDict [("error", PyStr ("No rate for " ++ b ++ "->" ++ q));
              ("supported_pairs",
               PyList (map PyStr ["EUR->THB"; "EUR->USD"; "THB->EUR";
                                  "THB->USD"; "USD->EUR"; "USD->THB"]))]).
Proof.
  intros Ha Hb Hq Hbu Hqu Hr. unfold convert. rewrite Ha, Hb, Hq. unfold bind.
  rewrite Hbu, Hqu, Hr. reflexivity.
Qed.

Lemma convert_rate (amount base quote : PyVal) (amt rate : float) (b q : string) :
  py_float amount = Some amt ->
  resolve_currency base = Ok b -> resolve_currency quote = Ok q ->
  String.eqb b "UNKNOWN" = false -> String.eqb q "UNKNOWN" = false ->
  dict_get RATE_TABLE (b ++ "->" ++ q) = Some rate ->
  convert amount base quote =
  (converted <- py_round (float_mul amt rate) 4;;
   Ok (PyDict [("amount", PyFloat amt); ("base", PyStr b); ("quote", PyStr q);
               ("rate", PyFloat rate); ("converted", PyFloat converted)]))%py.
Proof.
  intros Ha Hb Hq Hbu Hqu Hr. unfold convert. rewrite Ha, Hb, Hq. unfold bind.
  rewrite Hbu, Hqu, Hr. reflexivity.
Qed.

(** No rate for a pair one side of which is the yen. *)
Lemma no_rate_for_JPY (b q : string) :
  In b ("UNKNOWN" :: SUPPORTED) -> In q ("UNKNOWN" :: SUPPORTED) ->
  b = "JPY" \/ q = "JPY" ->
  dict_get RATE_TABLE (b ++ "->" ++ q) = None.
Proof.
  simpl. intros Hb Hq [->| ->].
  - repeat (destruct Hq as [<-|Hq]; [reflexivity|]). contradiction.
  - repeat (destruct Hb as [<-|Hb]; [reflexivity|]). contradiction.
Qed.



(** C4, as the claim states it, fails: the amount is checked before the
    currencies, so [convert(None, "ABC", "USD")] reports the invalid
    amount although "ABC" resolves to the sentinel. *)
Lemma convert_unknown_currency_any_amount_fails :
  ~ (forall amount base quote : PyVal,
        resolve_currency base = Ok "UNKNOWN" \/ resolve_currency quote = Ok "UNKNOWN" ->
        convert amount base quote =
        Ok (PyDict [("error", PyStr "UNKNOWN_CURRENCY");
                    ("hint", PyDict [("supported", SUPPORTED_val);
                                     ("base", base); ("quote", quote)])])).
Proof.
  intros H.
  specialize (H PyNone (PyStr "ABC") (PyStr "USD") (or_introl eq_refl)).
  vm_compute in H. discriminate H.
Qed.

(** C4, amended.  When [float] accepts the amount and both currency
    arguments resolve, at least one of them to the sentinel, [convert]
    returns (and does not raise) the error result tagged
    "UNKNOWN_CURRENCY", whose hint holds the supported codes and the two
    currency arguments as given. *)
Theorem convert_unknown_currency
    (amount base quote : PyVal) (amt : float) (b q : string) :
  py_float amount = Some amt ->
  resolve_currency base = Ok b ->
  resolve_currency quote = Ok q ->
  b = "UNKNOWN" \/ q = "UNKNOWN" ->
  convert amount base quote =
  Ok (PyDict [("error", PyStr "UNKNOWN_CURRENCY");
              ("hint", PyDict [("supported", PyList [PyStr "USD"; PyStr "THB";
                                                     PyStr "EUR"; PyStr "JPY"]);
                               ("base", base); ("quote", quote)])]).
Proof. exact (convert_unknown amount base quote amt b q). Qed.

Lemma convert_unknown_currency_witness :
  py_float (PyInt 10) = Some (float_of_decimal false 10 0) /\
  resolve_currency (PyStr "ABC") = Ok "UNKNOWN" /\
  resolve_currency (PyStr "USD") = Ok "USD" /\
  ("UNKNOWN" = "UNKNOWN" \/ "USD" = "UNKNOWN") /\
  convert (PyInt 10) (PyStr "ABC") (PyStr "USD") =
  Ok (PyDict [("error", PyStr "UNKNOWN_CURRENCY");
              ("hint", PyDict [("supported", PyList [PyStr "USD"; PyStr "THB";
                                                     PyStr "EUR"; PyStr "JPY"]);
                               ("base", PyStr "ABC"); ("quote", PyStr "USD")])]).
Proof.
  refine (conj eq_refl (conj eq_refl (conj eq_refl (conj (or_introl eq_refl) _)))).
  exact (convert_unknown_currency (PyInt 10) (PyStr "ABC") (PyStr "USD") _ _ _
           eq_refl eq_refl eq_refl (or_introl eq_refl)).
Defined.

(** C5, as the claim states it, fails for the same reason:
    [convert(None, "JPY", "USD")] reports the invalid amount and lists no
    pairs. *)
Lemma convert_missing_rate_any_amount_fails :
  ~ (forall (amount base quote : PyVal) (b q : string),
        resolve_currency base = Ok b -> resolve_currency quote = Ok q ->
        In b SUPPORTED -> In q SUPPORTED ->
        dict_get RATE_TABLE (b ++ "->" ++ q) = None ->
        convert amount base quote =
        Ok (PyDict [("error", PyStr ("No rate for " ++ b ++ "->" ++ q));
                    ("supported_pairs",
                     PyList (map PyStr (sorted (dict_keys RATE_TABLE))))])).
Proof.
  intros H.
  assert (Hb : In "JPY" SUPPORTED) by (simpl; tauto).
  assert (Hq : In "USD" SUPPORTED) by (simpl; tauto).
  specialize (H PyNone (PyStr "JPY") (PyStr "USD") "JPY" "USD" eq_refl eq_refl Hb Hq eq_refl).
  vm_compute in H. discriminate H.
Qed.

(** C5, amended.  When [float] accepts the amount and both currency
    arguments resolve to supported codes whose ordered pair has no entry in
    [RATE_TABLE], [convert] returns (and does not raise) an error result
    that names the pair and lists the known pairs: exactly the keys of
    [RATE_TABLE], in sorted order. *)
Theorem convert_missing_rate
    (amount base quote : PyVal) (amt : float) (b q : string) :
  py_float amount = Some amt ->
  resolve_currency base = Ok b ->
  resolve_currency quote = Ok q ->
  In b SUPPORTED -> In q SUPPORTED ->
  dict_get RATE_TABLE (b ++ "->" ++ q) = None ->
  let pairs := ["EUR->THB"; "EUR->USD"; "THB->EUR"; "THB->USD"; "USD->EUR"; "USD->THB"] in
  convert amount base quote =
  Ok (PyDict [("error", PyStr ("No rate for " ++ b ++ "->" ++ q));
              ("supported_pairs", PyList (map PyStr pairs))]) /\
  (forall k : string, In k pairs <-> dict_get RATE_TABLE k <> None).
Proof.
  intros Ha Hb Hq Hbs Hqs Hr pairs. split.
  - apply (convert_no_rate amount base quote amt b q);
      auto using supported_not_unknown.
  - intros k. subst pairs. split.
    + simpl. intros H.
      repeat (destruct H as [<-|H]; [discriminate|]). contradiction.
    + unfold RATE_TABLE, dict_get. intros H.
      repeat match type of H with
             | context [String.eqb k ?x] =>
                 destruct (String.eqb_spec k x) as [E|_]; [rewrite E; simpl; tauto|]
             end.
      congruence.
Qed.

Lemma convert_missing_rate_witness :
  py_float (PyInt 5) = Some (float_of_decimal false 5 0) /\
  resolve_currency (PyStr "JPY") = Ok "JPY" /\
  resolve_currency (PyStr "USD") = Ok "USD" /\
  In "JPY" SUPPORTED /\ In "USD" SUPPORTED /\
  dict_get RATE_TABLE ("JPY" ++ "->" ++ "USD") = None /\
  convert (PyInt 5) (PyStr "JPY") (PyStr "USD") =
  Ok (PyDict [("error", PyStr "No rate for JPY->USD");
              ("supported_pairs",
               PyList [PyStr "EUR->THB"; PyStr "EUR->USD"; PyStr "THB->EUR";
                       PyStr "THB->USD"; PyStr "USD->EUR"; PyStr "USD->THB"])]).
Proof.
  assert (Hb : In "JPY" SUPPORTED) by (simpl; tauto).
  assert (Hq : In "USD" SUPPORTED) by (simpl; tauto).
  refine (conj eq_refl (conj eq_refl (conj eq_refl (conj Hb (conj Hq (conj eq_refl _)))))).
  exact (proj1 (convert_missing_rate (PyInt 5) (PyStr "JPY") (PyStr "USD") _ "JPY" "USD"
                  eq_refl eq_refl eq_refl Hb Hq eq_refl)).
Defined.

(** [round_half_even] picks an integer at distance at most one half. *)
Lemma round_half_even_nearest (q : Q) :
  (Qabs (inject_Z (round_half_even q) - q) <= 1 # 2)%Q.
Proof.
  unfold round_half_even, Qltb.
  pose proof (Qfloor_le q) as Hlo. pose proof (Qlt_floor q) as Hhi.
  rewrite inject_Z_plus in Hhi. change (inject_Z 1) with 1%Q in Hhi.
  generalize dependent (Qfloor q). intros f Hlo Hhi.
  apply Qabs_Qle_condition.
  destruct (Qle_bool (1 # 2) (q - inject_Z f)) eqn:E1; simpl.
  - apply Qle_bool_iff in E1.
    destruct (Qle_bool (q - inject_Z f) (1 # 2)) eqn:E2; simpl.
    + apply Qle_bool_iff in E2.
      destruct (Z.even f);
        [|rewrite inject_Z_plus; change (inject_Z 1) with 1%Q];
        generalize dependent (inject_Z f); intros x Hlo Hhi E1 E2; split; lra.
    + rewrite inject_Z_plus. change (inject_Z 1) with 1%Q.
      clear E2. generalize dependent (inject_Z f); intros x Hlo Hhi E1; split; lra.
  - assert (H : ~ (1 # 2 <= q - inject_Z f)%Q)
      by (intros H; apply Qle_bool_iff in H; congruence).
    clear E1. generalize dependent (inject_Z f); intros x Hlo Hhi H; split; lra.
Qed.

(** What [round(x, 4)] returns for a finite [x]: the float nearest to a
    decimal with four places, itself nearest to the exact value of [x]. *)
Lemma py_round_4_finite (s : bool) (m : positive) (e : Z) (r : float) :
  py_round (S754_finite s m e) 4 = Ok r ->
  exists k : Z,
    r = float_of_decimal s k (-4) /\
    (Qabs (inject_Z k - inject_Z (Zpos m) * pow2 e * pow10 4) <= 1 # 2)%Q.
Proof.
  unfold py_round. cbn [is_finite negb].
  change (4 >? NDIGITS_MAX) with false. change (4 <? NDIGITS_MIN) with false.
  cbv iota. unfold double_round. change (- (4)) with (-4).
  set (k := round_half_even (inject_Z (Zpos m) * pow2 e * pow10 4)).
  destruct (is_infinite (float_of_decimal s k (-4))); [discriminate|].
  intros [= <-]. exists k. split; [reflexivity|]. apply round_half_even_nearest.
Qed.

(** C9. In every success result the converted field is
    [round(amt * rate, 4)], where [amt] is the parsed amount and [rate] the
    table rate of the resolved pair: the float nearest to the four-place
    decimal nearest to the product; [convert(250, "THB", "EUR")] yields
    [round(250 * 0.025, 4)], which is 6.25. *)
Theorem convert_rounds_to_4_places :
  (forall (amount base quote : PyVal) (d : list (string * PyVal)) (c : PyVal),
      convert amount base quote = Ok (PyDict d) ->
      dict_get d "converted" = Some c ->
      exists (amt rate conv : float) (b q : string),
        py_float amount = Some amt /\
        resolve_currency base = Ok b /\ resolve_currency quote = Ok q /\
        dict_get RATE_TABLE (b ++ "->" ++ q) = Some rate /\
        py_round (float_mul amt rate) 4 = Ok conv /\
        c = PyFloat conv /\
        (forall s m e, float_mul amt rate = S754_finite s m e ->
           exists k : Z,
             conv = float_of_decimal s k (-4) /\
             (Qabs (inject_Z k - inject_Z (Zpos m) * pow2 e * pow10 4) <= 1 # 2)%Q)) /\
  convert (PyInt 250) (PyStr "THB") (PyStr "EUR") =
  Ok (PyDict [("amount", PyFloat (float_of_decimal false 250 0));
              ("base", PyStr "THB");
              ("quote", PyStr "EUR");
              ("rate", PyFloat (float_of_decimal false 25 (-3)));
              ("converted", PyFloat (float_of_decimal false 625 (-2)))]) /\
  py_round (float_mul (float_of_decimal false 250 0) (float_of_decimal false 25 (-3))) 4 =
  Ok (float_of_decimal false 625 (-2)).
Proof.
  split; [|split; vm_compute; reflexivity].
  intros amount base quote d c H Hc. unfold convert in H.
  destruct (py_float amount) as [amt|] eqn:Ha;
    [|injection H as <-; discriminate Hc].
  destruct (resolve_currency base) as [b|] eqn:Hb; [|discriminate H].
  destruct (resolve_currency quote) as [q|] eqn:Hq; [|discriminate H].
  unfold bind in H.
  destruct (String.eqb b "UNKNOWN" || String.eqb q "UNKNOWN");
    [injection H as <-; discriminate Hc|].
  destruct (dict_get RATE_TABLE (b ++ "->" ++ q)) as [rate|] eqn:Hr;
    [|injection H as <-; discriminate Hc].
  destruct (py_round (float_mul amt rate) 4) as [conv|] eqn:Hround; [|discriminate H].
  injection H as <-. simpl in Hc. injection Hc as <-.
  exists amt, rate, conv, b, q. repeat split; auto.
  intros s m e Hfin. rewrite Hfin in Hround. now apply py_round_4_finite.
Qed.

Lemma convert_rounds_to_4_places_witness :
  convert (PyInt 250) (PyStr "THB") (PyStr "EUR") =
    Ok (PyDict [("amount", PyFloat (float_of_decimal false 250 0));
                ("base", PyStr "THB");
                ("quote", PyStr "EUR");
                ("rate", PyFloat (float_of_decimal false 25 (-3)));
                ("converted", PyFloat (float_of_decimal false 625 (-2)))]) /\
  dict_get [("amount", PyFloat (float_of_decimal false 250 0));
            ("base", PyStr "THB");
            ("quote", PyStr "EUR");
            ("rate", PyFloat (float_of_decimal false 25 (-3)));
            ("converted", PyFloat (float_of_decimal false 625 (-2)))] "converted" =
    Some (PyFloat (float_of_decimal false 625 (-2))) /\
  exists (amt rate conv : float) (b q : string),
    py_float (PyInt 250) = Some amt /\
    resolve_currency (PyStr "THB") = Ok b /\ resolve_currency (PyStr "EUR") = Ok q /\
    dict_get RATE_TABLE (b ++ "->" ++ q) = Some rate /\
    py_round (float_mul amt rate) 4 = Ok conv /\
    PyFloat (float_of_decimal false 625 (-2)) = PyFloat conv /\
    (forall s m e, float_mul amt rate = S754_finite s m e ->
       exists k : Z,
         conv = float_of_decimal s k (-4) /\
         (Qabs (inject_Z k - inject_Z (Zpos m) * pow2 e * pow10 4) <= 1 # 2)%Q).
Proof.
  assert (H : convert (PyInt 250) (PyStr "THB") (PyStr "EUR") =
    Ok (PyDict [("amount", PyFloat (float_of_decimal false 250 0));
                ("base", PyStr "THB");
                ("quote", PyStr "EUR");
                ("rate", PyFloat (float_of_decimal false 25 (-3)));
                ("converted", PyFloat (float_of_decimal false 625 (-2)))]))
    by (vm_compute; reflexivity).
  refine (conj H (conj eq_refl _)).
  exact (proj1 convert_rounds_to_4_places _ _ _ _ _ H eq_refl).
Defined.

(** C10, as the claim states it, fails: with the yen on one side and an
    unknown currency on the other, [convert(1, "JPY", "ABC")] returns the
    unknown-currency error, not the missing-rate error. *)
Lemma convert_JPY_not_always_missing_rate :
  ~ (forall amount base quote : PyVal,
        resolve_currency base = Ok "JPY" \/ resolve_currency quote = Ok "JPY" ->
        exists pair : string,
          convert amount base quote =
          Ok (PyDict [("error", PyStr ("No rate for " ++ pair));
                      ("supported_pairs",
                       PyList (map PyStr (sorted (dict_keys RATE_TABLE))))])).
Proof.
  intros H.
  destruct (H (PyInt 1) (PyStr "JPY") (PyStr "ABC") (or_introl eq_refl)) as [pair Hp].
  vm_compute in Hp. discriminate Hp.
Qed.

(** C10, amended.  "JPY" is a supported code, [resolve_currency] accepts it
    and the name "yen", and no key of [RATE_TABLE] mentions it.  Hence a
    [convert] call whose base or quote resolves to "JPY" never returns a
    success result: what it returns is an error result, and it is the
    missing-rate error whenever [float] accepts the amount and both
    currency arguments resolve to supported codes. *)
Theorem convert_JPY_never_succeeds :
  In "JPY" SUPPORTED /\
  resolve_currency (PyStr "JPY") = Ok "JPY" /\
  resolve_currency (PyStr "yen") = Ok "JPY" /\
  forallb (fun k => negb (has_substring "JPY" k)) (dict_keys RATE_TABLE) = true /\
  (forall (amount base quote v : PyVal),
      resolve_currency base = Ok "JPY" \/ resolve_currency quote = Ok "JPY" ->
      convert amount base quote = Ok v ->
      exists (d : list (string * PyVal)) (msg : string),
        v = PyDict d /\ dict_get d "error" = Some (PyStr msg) /\
        dict_get d "converted" = None) /\
  (forall (amount base quote : PyVal) (amt : float) (b q : string),
      py_float amount = Some amt ->
      resolve_currency base = Ok b -> resolve_currency quote = Ok q ->
      In b SUPPORTED -> In q SUPPORTED ->
      b = "JPY" \/ q = "JPY" ->
      convert amount base quote =
      Ok (PyDict [("error", PyStr ("No rate for " ++ b ++ "->" ++ q));
                  ("supported_pairs",
                   PyList (map PyStr ["EUR->THB"; "EUR->USD"; "THB->EUR";
                                      "THB->USD"; "USD->EUR"; "USD->THB"]))])).
Proof.
  split; [simpl; tauto|].
  split; [reflexivity|]. split; [reflexivity|]. split; [reflexivity|].
  split.
  - intros amount base quote v HJ H. unfold convert in H.
    destruct (py_float amount) as [amt|] eqn:Ha;
      [|injection H as <-; eexists; eexists; repeat split; reflexivity].
    destruct (resolve_currency base) as [b|] eqn:Hb; [|discriminate H].
    destruct (resolve_currency quote) as [q|] eqn:Hq; [|discriminate H].
    unfold bind in H.
    destruct (String.eqb b "UNKNOWN" || String.eqb q "UNKNOWN");
      [injection H as <-; eexists; eexists; repeat split; reflexivity|].
    rewrite (no_rate_for_JPY b q) in H.
    + injection H as <-. eexists; eexists; repeat split; reflexivity.
    + now apply resolve_currency_range with base.
    + now apply resolve_currency_range with quote.
    + destruct HJ as [HJ|HJ]; injection HJ as ->; auto.
  - intros amount base quote amt b q Ha Hb Hq Hbs Hqs HJ.
    apply (convert_no_rate amount base quote amt b q);
      auto using supported_not_unknown.
    apply no_rate_for_JPY; auto; now right.
Qed.

Lemma convert_JPY_never_succeeds_witness :
  py_float (PyInt 5) = Some (float_of_decimal false 5 0) /\
  resolve_currency (PyStr "yen") = Ok "JPY" /\
  resolve_currency (PyStr "USD") = Ok "USD" /\
  In "JPY" SUPPORTED /\ In "USD" SUPPORTED /\
  ("JPY" = "JPY" \/ "USD" = "JPY") /\
  convert (PyInt 5) (PyStr "yen") (PyStr "USD") =
  Ok (PyDict [("error", PyStr "No rate for JPY->USD");
              ("supported_pairs",
               PyList [PyStr "EUR->THB"; PyStr "EUR->USD"; PyStr "THB->EUR";
                       PyStr "THB->USD"; PyStr "USD->EUR"; PyStr "USD->THB"])]).
Proof.
  assert (Hb : In "JPY" SUPPORTED) by (simpl; tauto).
  assert (Hq : In "USD" SUPPORTED) by (simpl; tauto).
  refine (conj eq_refl (conj eq_refl (conj eq_refl
           (conj Hb (conj Hq (conj (or_introl eq_refl) _)))))).
  exact (proj2 (proj2 (proj2 (proj2 (proj2 convert_JPY_never_succeeds))))
           (PyInt 5) (PyStr "yen") (PyStr "USD") _ "JPY" "USD"
           eq_refl eq_refl eq_refl Hb Hq (or_introl eq_refl)).
Defined.

(** ** The dispatch loop *)

Section DispatchLoop.

Variable completion : nat -> Request -> Result Message.
Variable json_loads : string -> Result PyVal.
Variable exn_str : PyExn -> string.
Variable self : Executor.
Variables (model : string) (temperature : float).

Notation loop := (loop completion json_loads exn_str self model temperature).
Notation run := (run completion json_loads exn_str self).
Notation invoke := (invoke json_loads self).
Notation execute_tool := (execute_tool json_loads exn_str self).
Notation request_of := (request_of self model temperature).
Notation after_tool_call :=
  (after_tool_call json_loads exn_str self model temperature).

Lemma app_assoc3 {A} (l : list A) (a b c : A) :
  (((l ++ [a]) ++ [b]) ++ [c] = l ++ [a; b; c])%list.
Proof. now rewrite <- !app_assoc. Qed.

(** One iteration, by the three cases of the provider's response. *)
Lemma loop_provider_raises turn rest st e :
  completion (List.length (requests st)) (request_of st) = Raise e ->
  loop (turn :: rest) st =
  (Raise e, {| messages := messages st; stdout := stdout st;
               requests := (requests st ++ [request_of st])%list |}).
Proof. intros H. simpl. now rewrite H. Qed.

Lemma loop_answer turn rest st msg :
  completion (List.length (requests st)) (request_of st) = Ok msg ->
  function_call msg = None ->
  loop (turn :: rest) st =
  (Ok tt, {| messages := messages st;
             stdout := (stdout st ++ [("FINAL: " ++ final_text msg)%string])%list;
             requests := (requests st ++ [request_of st])%list |}).
Proof.
  intros H Hfc. simpl. rewrite H, Hfc. unfold print, sent, final_text, py_or. simpl.
  destruct (content msg) as [text|]; simpl; [|reflexivity].
  now destruct (String.eqb text "").
Qed.

Lemma loop_tool_call turn rest st msg fc :
  completion (List.length (requests st)) (request_of st) = Ok msg ->
  function_call msg = Some fc ->
  loop (turn :: rest) st = loop rest (after_tool_call turn fc st).
Proof.
  intros H Hfc. simpl. rewrite H, Hfc. f_equal.
  unfold after_tool_call, append_message, print, sent. simpl.
  now rewrite app_assoc3, <- app_assoc.
Qed.

(** The requests of a loop extend those sent before it, by at most one
    for each turn. *)
Lemma loop_requests turns : forall st,
  exists new : list Request,
    requests (snd (loop turns st)) = (requests st ++ new)%list /\
    (List.length new <= List.length turns)%nat.
Proof.
  induction turns as [|turn rest IH]; intros st.
  - exists []. simpl. now rewrite app_nil_r.
  - destruct (completion (List.length (requests st)) (request_of st)) as [msg|e] eqn:H.
    + destruct (function_call msg) as [fc|] eqn:Hfc.
      * rewrite (loop_tool_call turn rest st msg fc H Hfc).
        destruct (IH (after_tool_call turn fc st)) as [new [Hn Hl]].
        exists (request_of st :: new). split.
        -- rewrite Hn. simpl. now rewrite <- app_assoc.
        -- simpl. lia.
      * rewrite (loop_answer turn rest st msg H Hfc).
        exists [request_of st]. simpl. split; [reflexivity|lia].
    + rewrite (loop_provider_raises turn rest st e H).
      exists [request_of st]. simpl. split; [reflexivity|lia].
Qed.

Lemma py_range_length (lo hi : Z) : List.length (py_range lo hi) = Z.to_nat (hi - lo).
Proof. unfold py_range. now rewrite length_map, length_seq. Qed.

(** C2. Whatever the user text, the provider and [max_turns], one run
    sends at most [max_turns] requests to the provider (none when
    [max_turns] is not positive). *)
Theorem run_at_most_max_turns (user_text : string) (max_turns : Z) :
  Z.of_nat (List.length (requests (snd (run user_text model max_turns temperature))))
  <= Z.max 0 max_turns.
Proof.
  unfold ToolExecutor.run.
  destruct (loop_requests (py_range 1 (max_turns + 1)) (initial_state user_text))
    as [new [Hn Hl]].
  rewrite Hn. simpl. rewrite py_range_length in Hl. lia.
Qed.


Lemma nth_error_Some_lt {A} (l : list A) (k : nat) (x : A) :
  nth_error l k = Some x -> (k < List.length l)%nat.
Proof. intros H. apply nth_error_Some. congruence. Qed.

(** A response without a function call, to a request sent by the loop,
    ends the loop there. *)
Lemma loop_answer_is_last turns : forall st k req msg,
  nth_error (requests (snd (loop turns st))) k = Some req ->
  (List.length (requests st) <= k)%nat ->
  completion k req = Ok msg ->
  function_call msg = None ->
  fst (loop turns st) = Ok tt /\
  List.length (requests (snd (loop turns st))) = S k /\
  exists earlier : list string,
    stdout (snd (loop turns st)) = (earlier ++ [("FINAL: " ++ final_text msg)%string])%list.
Proof.
  induction turns as [|turn rest IH]; intros st k req msg Hk Hle Hc Hfc.
  - simpl in Hk. apply nth_error_Some_lt in Hk. lia.
  - assert (Hlast : forall r : Request,
              nth_error (requests st ++ [r])%list k = Some req ->
              k = List.length (requests st) /\ req = r).
    { intros r Hr. assert (Hlt := nth_error_Some_lt _ _ _ Hr).
      rewrite length_app in Hlt. simpl in Hlt.
      assert (k = List.length (requests st)) as -> by lia.
      rewrite nth_error_app2, Nat.sub_diag in Hr by lia.
      injection Hr as <-. auto. }
    destruct (completion (List.length (requests st)) (request_of st)) as [m|e] eqn:H.
    + destruct (function_call m) as [fc|] eqn:Hm.
      * rewrite (loop_tool_call turn rest st m fc H Hm) in *.
        destruct (Nat.eq_dec k (List.length (requests st))) as [->|Hne].
        -- exfalso.
           destruct (loop_requests rest (after_tool_call turn fc st)) as [new [Hn _]].
           rewrite Hn in Hk. simpl in Hk. rewrite <- app_assoc in Hk. simpl in Hk.
           rewrite nth_error_app2, Nat.sub_diag in Hk by lia.
           injection Hk as <-. congruence.
        -- apply (IH (after_tool_call turn fc st) k req msg); auto.
           simpl. rewrite length_app. simpl. lia.
      * rewrite (loop_answer turn rest st m H Hm) in *. simpl in *.
        destruct (Hlast _ Hk) as [-> ->].
        assert (m = msg) as -> by congruence.
        repeat split.
        -- rewrite length_app. simpl. lia.
        -- now exists (stdout st).
    + rewrite (loop_provider_raises turn rest st e H) in Hk. simpl in Hk.
      destruct (Hlast _ Hk) as [-> ->]. congruence.
Qed.

(** C6. In a run, when the response to some request carries no function
    call, the run returns normally, that request is the last one sent, and
    the last line printed is "FINAL:" followed by the textual content of
    that response. *)
Theorem run_final_answer
    (user_text : string) (max_turns : Z) (k : nat) (req : Request) (msg : Message) :
  nth_error (requests (snd (run user_text model max_turns temperature))) k = Some req ->
  completion k req = Ok msg ->
  function_call msg = None ->
  fst (run user_text model max_turns temperature) = Ok tt /\
  List.length (requests (snd (run user_text model max_turns temperature))) = S k /\
  exists earlier : list string,
    stdout (snd (run user_text model max_turns temperature)) =
    (earlier ++ [("FINAL: " ++ match content msg with
                               | Some text => text
                               | None => "None"
                               end)%string])%list.
Proof.
  intros Hk Hc Hfc. unfold ToolExecutor.run in *.
  apply (loop_answer_is_last _ _ k req msg); auto. simpl. lia.
Qed.

(** C7. When the call of a tool raises an exception [e] (while decoding
    the arguments, looking the tool up, binding the arguments or running
    the callable), the iteration appends the assistant turn and a function
    turn whose content is the serialization of [{"error": str(e)}], and the
    loop goes on with the remaining turns. *)
Theorem loop_tool_fault_continues
    (turn : Z) (rest : list Z) (st : RunState) (msg : Message) (fc : ToolCall) (e : PyExn) :
  completion (List.length (requests st)) (request_of st) = Ok msg ->
  function_call msg = Some fc ->
  invoke fc = Raise e ->
  exists st' : RunState,
    loop (turn :: rest) st = loop rest st' /\
    messages st' =
    (messages st ++
     [PyDict [("role", PyStr "assistant");
              ("content", PyNone);
              ("function_call", PyDict [("name", opt_str (name fc));
                                        ("arguments", opt_str (arguments fc))])];
      PyDict [("role", PyStr "function");
              ("name", opt_str (name fc));
              ("content",
               PyStr (json_dumps (PyDict [("error", PyStr (exn_str e))])))]])%list /\
    requests st' = (requests st ++ [request_of st])%list.
Proof.
  intros H Hfc He. exists (after_tool_call turn fc st). split.
  - now apply loop_tool_call with msg.
  - unfold ToolExecutor.after_tool_call, ToolExecutor.execute_tool, try_except.
    simpl. rewrite He. auto.
Qed.

(** An exception raised by the registered callable itself is one of them. *)
Lemma invoke_callable_raises (fc : ToolCall) (n s : string)
    (kwargs : list (string * PyVal)) (func : Callable) (e : PyExn) :
  name fc = Some n -> arguments fc = Some s -> s <> "" ->
  json_loads s = Ok (PyDict kwargs) -> kwargs <> [] ->
  dict_get (tools self) n = Some func ->
  func kwargs = Raise e ->
  invoke fc = Raise e.
Proof.
  intros Hn Ha Hs Hj Hk Hf He. unfold ToolExecutor.invoke, loads, py_or, tools_getitem.
  rewrite Ha, Hn. simpl. apply String.eqb_neq in Hs. rewrite Hs. simpl.
  rewrite Hj. simpl. destruct kwargs; [contradiction|]. rewrite Hf. simpl. exact He.
Qed.

Lemma invoke_callable_raises_without_arguments (fc : ToolCall) (n : string)
    (func : Callable) (e : PyExn) :
  name fc = Some n -> arguments fc = None ->
  json_loads "{}" = Ok (PyDict []) ->
  dict_get (tools self) n = Some func ->
  func [] = Raise e ->
  invoke fc = Raise e.
Proof.
  intros Hn Ha Hj Hf He. unfold ToolExecutor.invoke, loads, py_or, tools_getitem.
  rewrite Ha, Hn. simpl. rewrite Hj. simpl. rewrite Hf. simpl. exact He.
Qed.

Hypothesis json_loads_empty_object : json_loads "{}" = Ok (PyDict []).


End DispatchLoop.

(** ** The loop on the worked examples *)

(** The cap is reached by a provider that never stops asking. *)
Example run_reaches_max_turns :
  List.length (requests (snd (run Sample.completion_loop Sample.json_loads Sample.exn_str
                                  Sample.ex "List the currencies" Sample.MODEL
                                  default_max_turns default_temperature))) = 6%nat.
Proof. vm_compute. reflexivity. Qed.

(** An answer at the first turn: one request, one line. *)
Example run_answers_at_once :
  run Sample.completion_answer Sample.json_loads Sample.exn_str Sample.ex
      "List the currencies" Sample.MODEL default_max_turns default_temperature =
  (Ok tt,
   {| messages := [PyDict [("role", PyStr "user");
                           ("content", PyStr "List the currencies")]];
      stdout := ["FINAL: Which currencies?"];
      requests := [request_of Sample.ex Sample.MODEL default_temperature
                     (initial_state "List the currencies")] |}).
Proof. reflexivity. Qed.

(** The first demo: what is printed, and the function turn fed back. *)
Example demo_run_output :
  stdout (snd Sample.demo_run) =
    ["=== INTERMEDIATE (turn 1) ===";
     "name: convert";
     "arguments: " ++ Sample.args_convert_100;
     "FINAL: 100 USD is 3500 THB."] /\
  nth_error (messages (snd Sample.demo_run)) 2 =
    Some (PyDict
            [("role", PyStr "function");
             ("name", PyStr "convert");
             ("content",
              PyStr ("{" ++ Sample.dq ++ "amount" ++ Sample.dq ++ ": 100.0, "
                       ++ Sample.dq ++ "base" ++ Sample.dq ++ ": "
                       ++ Sample.dq ++ "USD" ++ Sample.dq ++ ", "
                       ++ Sample.dq ++ "quote" ++ Sample.dq ++ ": "
                       ++ Sample.dq ++ "THB" ++ Sample.dq ++ ", "
                       ++ Sample.dq ++ "rate" ++ Sample.dq ++ ": 35.0, "
                       ++ Sample.dq ++ "converted" ++ Sample.dq ++ ": 3500.0}"))]).
Proof. vm_compute. split; reflexivity. Qed.

Lemma run_final_answer_witness :
  nth_error (requests (snd Sample.demo_run)) 1 = Some Sample.demo_second_request /\
  Sample.completion_demo 1 Sample.demo_second_request =
    Ok (Sample.answer "100 USD is 3500 THB.") /\
  function_call (Sample.answer "100 USD is 3500 THB.") = None /\
  fst Sample.demo_run = Ok tt /\
  List.length (requests (snd Sample.demo_run)) = 2%nat /\
  exists earlier : list string,
    stdout (snd Sample.demo_run) = (earlier ++ ["FINAL: 100 USD is 3500 THB."])%list.
Proof.
  assert (H : nth_error (requests (snd Sample.demo_run)) 1 = Some Sample.demo_second_request)
    by (vm_compute; reflexivity).
  refine (conj H (conj eq_refl (conj eq_refl _))).
  exact (run_final_answer Sample.completion_demo Sample.json_loads Sample.exn_str Sample.ex
           Sample.MODEL default_temperature "Convert 100 USD to THB" default_max_turns
           1 Sample.demo_second_request (Sample.answer "100 USD is 3500 THB.")
           H eq_refl eq_refl).
Defined.

Lemma loop_tool_fault_continues_witness :
  let st := ToolExecutor.after_tool_call Sample.json_loads Sample.exn_str Sample.ex
              Sample.MODEL default_temperature 1
              {| name := Some "list_supported"; arguments := Some "oops" |}
              (initial_state "hi") in
  let fc := {| name := Some "resolve_currency"; arguments := Some Sample.args_resolve_5 |} in
  Sample.completion_faulty (List.length (requests st))
    (request_of Sample.ex Sample.MODEL default_temperature st) =
    Ok (Sample.call "resolve_currency" (Some Sample.args_resolve_5)) /\
  function_call (Sample.call "resolve_currency" (Some Sample.args_resolve_5)) = Some fc /\
  invoke Sample.json_loads Sample.ex fc = Raise (AttributeError (PyInt 5) "strip") /\
  exists st' : RunState,
    loop Sample.completion_faulty Sample.json_loads Sample.exn_str Sample.ex
         Sample.MODEL default_temperature [2; 3] st =
    loop Sample.completion_faulty Sample.json_loads Sample.exn_str Sample.ex
         Sample.MODEL default_temperature [3] st' /\
    messages st' =
    (messages st ++
     [PyDict [("role", PyStr "assistant");
              ("content", PyNone);
              ("function_call", PyDict [("name", PyStr "resolve_currency");
                                        ("arguments", PyStr Sample.args_resolve_5)])];
      PyDict [("role", PyStr "function");
              ("name", PyStr "resolve_currency");
              ("content",
               PyStr (json_dumps
                        (PyDict [("error",
                                  PyStr "'int' object has no attribute 'strip'")])))]])%list /\
    requests st' =
    (requests st ++ [request_of Sample.ex Sample.MODEL default_temperature st])%list.
Proof.
  intros st fc.
  refine (conj eq_refl (conj eq_refl (conj eq_refl _))).
  exact (loop_tool_fault_continues Sample.completion_faulty Sample.json_loads Sample.exn_str
           Sample.ex Sample.MODEL default_temperature 2 [3] st
           (Sample.call "resolve_currency" (Some Sample.args_resolve_5)) fc
           (AttributeError (PyInt 5) "strip") eq_refl eq_refl eq_refl).
Defined.



(** * Further properties of the currency tools *)

(** ** [resolve_currency] on every value *)

Lemma resolve_currency_falsy (v : PyVal) :
  truthy v = false -> resolve_currency v = Ok "UNKNOWN".
Proof.
  intros H. unfold resolve_currency, py_or. rewrite H. reflexivity.
Qed.

Lemma resolve_currency_raise (v : PyVal) (e : PyExn) :
  resolve_currency v = Raise e ->
  e = AttributeError v "strip" /\ truthy v = true /\ forall s, v <> PyStr s.
Proof.
  destruct (truthy v) eqn:Ht.
  - destruct v as [| | | |s| |]; try (rewrite resolve_currency_str; discriminate);
      unfold resolve_currency, py_or; rewrite Ht; simpl;
      intros [= <-]; repeat split; congruence.
  - rewrite (resolve_currency_falsy v Ht). discriminate.
Qed.

(** X1. [resolve_currency] raises exactly on a value that is true and is
    not a string, and then it is the [AttributeError] for [strip] on that
    value; every false value ([None], [0], [""], an empty list...)
    resolves to the sentinel, and every string resolves to something. *)
Theorem resolve_currency_raises_iff (v : PyVal) :
  (truthy v = false -> resolve_currency v = Ok "UNKNOWN") /\
  (forall s : string, v = PyStr s -> exists r : string, resolve_currency v = Ok r) /\
  (truthy v = true -> (forall s : string, v <> PyStr s) ->
   resolve_currency v = Raise (AttributeError v "strip")) /\
  (forall e : PyExn, resolve_currency v = Raise e ->
   e = AttributeError v "strip" /\ truthy v = true /\ forall s : string, v <> PyStr s).
Proof.
  split; [apply resolve_currency_falsy|]. split; [|split].
  - intros s ->. rewrite resolve_currency_str. eauto.
  - intros Ht Hs. destruct (resolve_currency v) as [r|e] eqn:H.
    + exfalso. unfold resolve_currency, py_or in H. rewrite Ht in H.
      destruct v; simpl in H; try discriminate. now apply (Hs s).
    + apply resolve_currency_raise in H. destruct H as [-> _]. reflexivity.
  - apply resolve_currency_raise.
Qed.

Lemma resolve_currency_raises_iff_witness :
  truthy (PyList []) = false /\ resolve_currency (PyList []) = Ok "UNKNOWN".
Proof.
  refine (conj eq_refl _).
  exact (proj1 (resolve_currency_raises_iff (PyList [])) eq_refl).
Defined.

(** X2. Whatever [resolve_currency] returns is the sentinel or one of the
    codes that [list_supported] returns, and the sentinel is none of
    them. *)
Theorem resolve_currency_in_list_supported (v : PyVal) (r : string) :
  resolve_currency v = Ok r ->
  (r = "UNKNOWN" \/
   exists l : list PyVal, list_supported = PyList l /\ In (PyStr r) l) /\
  (forall l : list PyVal, list_supported = PyList l -> ~ In (PyStr "UNKNOWN") l).
Proof.
  intros H. apply resolve_currency_range in H. split.
  - destruct H as [<-|H]; [now left|]. right.
    exists (map PyStr SUPPORTED). split; [reflexivity|]. now apply in_map.
  - intros l [= <-]. simpl. intros Hin.
    repeat (destruct Hin as [Hin|Hin]; [discriminate|]). contradiction.
Qed.

Lemma resolve_currency_in_list_supported_witness :
  resolve_currency (PyStr "Yen") = Ok "JPY" /\
  ("JPY" = "UNKNOWN" \/
   exists l : list PyVal, list_supported = PyList l /\ In (PyStr "JPY") l).
Proof.
  refine (conj eq_refl _).
  exact (proj1 (resolve_currency_in_list_supported (PyStr "Yen") "JPY" eq_refl)).
Defined.

(** ** Case and whitespace do not matter, for any text *)

Lemma is_space_lower (c : ascii) : is_space (char_lower c) = is_space c.
Proof. each_char c. Qed.

Lemma same_letter_same_space (x y : ascii) :
  char_lower x = char_lower y -> is_space x = is_space y.
Proof.
  intros H. rewrite <- (is_space_lower x), <- (is_space_lower y). now rewrite H.
Qed.

Lemma eq_ignore_case_nil (s : string) : eq_ignore_case "" s = true -> s = "".
Proof. destruct s; simpl; [reflexivity|discriminate]. Qed.

Lemma eq_ignore_case_lstrip (a b : string) :
  eq_ignore_case a b = true ->
  eq_ignore_case (lstrip_by is_space a) (lstrip_by is_space b) = true.
Proof.
  revert b. induction a as [|x a IH]; intros [|y b]; simpl; try discriminate; auto.
  intros H. pose proof H as H'. apply andb_true_iff in H'. destruct H' as [Hc Hr].
  apply Ascii.eqb_eq in Hc. rewrite (same_letter_same_space x y Hc).
  destruct (is_space y); [auto|]. simpl. exact H.
Qed.

Lemma eq_ignore_case_rstrip (a b : string) :
  eq_ignore_case a b = true ->
  eq_ignore_case (rstrip_by is_space a) (rstrip_by is_space b) = true.
Proof.
  revert b. induction a as [|x a IH]; intros [|y b]; simpl; try discriminate; auto.
  intros H. apply andb_true_iff in H. destruct H as [Hc Hr].
  specialize (IH b Hr). pose proof Hc as Hc'. apply Ascii.eqb_eq in Hc'.
  rewrite (same_letter_same_space x y Hc').
  destruct (rstrip_by is_space a) as [|a0 a'] eqn:Ea.
  - apply eq_ignore_case_nil in IH. rewrite IH.
    destruct (is_space y); simpl; [reflexivity|]. now rewrite Hc.
  - destruct (rstrip_by is_space b) as [|b0 b'] eqn:Eb; [discriminate IH|].
    simpl. simpl in IH. now rewrite Hc, IH.
Qed.

Lemma eq_ignore_case_upper (a s : string) :
  eq_ignore_case a s = true -> str_upper s = str_upper a.
Proof.
  intros H. rewrite <- (str_upper_lower s), <- (str_upper_lower a).
  now rewrite (eq_ignore_case_lower a s H).
Qed.

Section StripFrame.
Variable sp : ascii -> bool.

Lemma rstrip_by_app_all (t w : string) :
  all_by sp w = true -> rstrip_by sp (t ++ w) = rstrip_by sp t.
Proof.
  intros Hw. induction t as [|c t IH]; simpl.
  - now apply rstrip_by_all.
  - now rewrite IH.
Qed.

Lemma strip_by_app_all (t w : string) :
  all_by sp w = true ->
  rstrip_by sp (lstrip_by sp (t ++ w)) = rstrip_by sp (lstrip_by sp t).
Proof.
  intros Hw. induction t as [|c t IH]; simpl.
  - now rewrite (lstrip_by_all_nil sp w Hw).
  - destruct (sp c); [exact IH|].
    exact (rstrip_by_app_all (String c t) w Hw).
Qed.
End StripFrame.

(** [strip] does not see a whitespace frame, whatever the text inside. *)
Lemma str_strip_any_frame (w1 t w2 : string) :
  all_space w1 = true -> all_space w2 = true ->
  str_strip (w1 ++ t ++ w2) = str_strip t.
Proof.
  unfold all_space, str_strip. intros H1 H2.
  rewrite lstrip_by_all by assumption. now apply strip_by_app_all.
Qed.

(** X3. For every text, known or not, [resolve_currency] gives the same
    answer for the text and for any variant of it that differs in the case
    of its letters and in whitespace put around it. *)
Theorem resolve_currency_ignores_case_and_frame (s s' w1 w2 : string) :
  eq_ignore_case s s' = true ->
  all_space w1 = true -> all_space w2 = true ->
  resolve_currency (PyStr (w1 ++ s' ++ w2)) = resolve_currency (PyStr s).
Proof.
  intros Hs H1 H2. rewrite !resolve_currency_str.
  rewrite (str_strip_any_frame w1 s' w2 H1 H2).
  assert (He : eq_ignore_case (str_strip s) (str_strip s') = true)
    by (unfold str_strip; now apply eq_ignore_case_rstrip, eq_ignore_case_lstrip).
  now rewrite (eq_ignore_case_upper _ _ He), (eq_ignore_case_lower _ _ He).
Qed.

Lemma resolve_currency_ignores_case_and_frame_witness :
  eq_ignore_case " us dollars" " US Dollars" = true /\
  all_space "  " = true /\ all_space " " = true /\
  resolve_currency (PyStr ("  " ++ " US Dollars" ++ " ")) =
  resolve_currency (PyStr " us dollars").
Proof.
  refine (conj eq_refl (conj eq_refl (conj eq_refl _))).
  exact (resolve_currency_ignores_case_and_frame " us dollars" " US Dollars" "  " " "
           eq_refl eq_refl eq_refl).
Defined.

(** ** [convert]: the amount, the shapes of a result, the exceptions *)

Lemma convert_not_a_number (amount base quote : PyVal) :
  py_float amount = None ->
  convert amount base quote =
  Ok (PyDict [("error", PyStr ("Invalid amount: " ++ py_str amount))]).
Proof. intros H. unfold convert. now rewrite H. Qed.



(** The result of [convert] once the amount is a number and both
    currencies resolve: a function of the resolved codes, but for the
    hint of the unknown-currency error. *)
Lemma convert_resolved (amount base quote : PyVal) (amt : float) (b q : string) :
  py_float amount = Some amt ->
  resolve_currency base = Ok b -> resolve_currency quote = Ok q ->
  convert amount base quote =
  if String.eqb b "UNKNOWN" || String.eqb q "UNKNOWN" then
    Ok (PyDict [("error", PyStr "UNKNOWN_CURRENCY");
                ("hint", PyDict [("supported", SUPPORTED_val);
                                 ("base", base); ("quote", quote)])])
  else
    match dict_get RATE_TABLE (b ++ "->" ++ q) with
    | None =>
        Ok (PyDict [("error", PyStr ("No rate for " ++ b ++ "->" ++ q));
                    ("supported_pairs",
                     PyList (map PyStr (sorted (dict_keys RATE_TABLE))))])
    | Some rate =>
        (converted <- py_round (float_mul amt rate) 4;;
         Ok (PyDict [("amount", PyFloat amt); ("base", PyStr b); ("quote", PyStr q);
                     ("rate", PyFloat rate); ("converted", PyFloat converted)]))%py
    end.
Proof. intros Ha Hb Hq. unfold convert. rewrite Ha, Hb, Hq. reflexivity. Qed.

(** The rate table holds pairs of two different supported codes only. *)
Lemma rate_table_pairs (b q : string) (rate : float) :
  In b ("UNKNOWN" :: SUPPORTED) -> In q ("UNKNOWN" :: SUPPORTED) ->
  dict_get RATE_TABLE (b ++ "->" ++ q) = Some rate ->
  In b SUPPORTED /\ In q SUPPORTED /\ b <> q.
Proof.
  simpl. intros Hb Hq.
  repeat (destruct Hb as [<-|Hb]; [|]); try contradiction;
    repeat (destruct Hq as [<-|Hq]; [|]); try contradiction;
    vm_compute; intros H; try discriminate H;
    (split; [tauto|split; [tauto|discriminate]]).
Qed.

(** X5. Whatever [convert] returns is a dict of one of two kinds, which a
    caller can tell apart by the key "error": an error result, with a
    text under "error" and neither "converted" nor "amount"; or a success
    result, without "error", with floats under "amount", "rate" and
    "converted" and texts under "base" and "quote". *)
Theorem convert_result_shape (amount base quote v : PyVal) :
  convert amount base quote = Ok v ->
  exists d : list (string * PyVal),
    v = PyDict d /\
    ((exists msg : string,
         dict_get d "error" = Some (PyStr msg) /\
         dict_get d "converted" = None /\ dict_get d "amount" = None) \/
     (dict_get d "error" = None /\
      exists (amt rate c : float) (b q : string),
        dict_get d "amount" = Some (PyFloat amt) /\
        dict_get d "base" = Some (PyStr b) /\
        dict_get d "quote" = Some (PyStr q) /\
        dict_get d "rate" = Some (PyFloat rate) /\
        dict_get d "converted" = Some (PyFloat c))).
Proof.
  intros H.
  destruct (py_float amount) as [amt|] eqn:Ha.
  - destruct (resolve_currency base) as [b|e] eqn:Hb;
      [|unfold convert in H; rewrite Ha, Hb in H; discriminate H].
    destruct (resolve_currency quote) as [q|e] eqn:Hq;
      [|unfold convert in H; rewrite Ha, Hb, Hq in H; discriminate H].
    rewrite (convert_resolved amount base quote amt b q Ha Hb Hq) in H.
    destruct (String.eqb b "UNKNOWN" || String.eqb q "UNKNOWN").
    + injection H as <-. eexists. split; [reflexivity|]. left. eexists. now repeat split.
    + destruct (dict_get RATE_TABLE (b ++ "->" ++ q)) as [rate|].
      * unfold bind in H. destruct (py_round (float_mul amt rate) 4) as [c|]; [|discriminate H].
        injection H as <-. eexists. split; [reflexivity|]. right.
        split; [reflexivity|]. exists amt, rate, c, b, q. now repeat split.
      * injection H as <-. eexists. split; [reflexivity|]. left. eexists. now repeat split.
  - rewrite (convert_not_a_number amount base quote Ha) in H.
    injection H as <-. eexists. split; [reflexivity|]. left. eexists. now repeat split.
Qed.

Lemma convert_result_shape_witness :
  convert (PyInt 5) (PyStr "JPY") (PyStr "USD") =
    Ok (PyDict [("error", PyStr "No rate for JPY->USD");
                ("supported_pairs",
                 PyList [PyStr "EUR->THB"; PyStr "EUR->USD"; PyStr "THB->EUR";
                         PyStr "THB->USD"; PyStr "USD->EUR"; PyStr "USD->THB"])]) /\
  exists d : list (string * PyVal),
    PyDict [("error", PyStr "No rate for JPY->USD");
            ("supported_pairs",
             PyList [PyStr "EUR->THB"; PyStr "EUR->USD"; PyStr "THB->EUR";
                     PyStr "THB->USD"; PyStr "USD->EUR"; PyStr "USD->THB"])] = PyDict d /\
    ((exists msg : string,
         dict_get d "error" = Some (PyStr msg) /\
         dict_get d "converted" = None /\ dict_get d "amount" = None) \/
     (dict_get d "error" = None /\
      exists (amt rate c : float) (b q : string),
        dict_get d "amount" = Some (PyFloat amt) /\
        dict_get d "base" = Some (PyStr b) /\
        dict_get d "quote" = Some (PyStr q) /\
        dict_get d "rate" = Some (PyFloat rate) /\
        dict_get d "converted" = Some (PyFloat c))).
Proof.
  refine (conj eq_refl _).
  exact (convert_result_shape (PyInt 5) (PyStr "JPY") (PyStr "USD") _ eq_refl).
Defined.

(** X6. Apart from the unknown-currency error, the result of [convert]
    depends on the currency arguments only through the codes they resolve
    to: a name, a code in any letter case and the code itself give the
    same result. *)
Theorem convert_depends_on_resolved_codes
    (amount base base' quote quote' : PyVal) (b q : string) :
  resolve_currency base = Ok b -> resolve_currency base' = Ok b ->
  resolve_currency quote = Ok q -> resolve_currency quote' = Ok q ->
  b <> "UNKNOWN" -> q <> "UNKNOWN" ->
  convert amount base quote = convert amount base' quote'.
Proof.
  intros Hb Hb' Hq Hq' Hbu Hqu.
  destruct (py_float amount) as [amt|] eqn:Ha.
  - rewrite (convert_resolved amount base quote amt b q Ha Hb Hq).
    rewrite (convert_resolved amount base' quote' amt b q Ha Hb' Hq').
    apply String.eqb_neq in Hbu, Hqu. now rewrite Hbu, Hqu.
  - now rewrite !(convert_not_a_number amount _ _ Ha).
Qed.

Lemma convert_depends_on_resolved_codes_witness :
  resolve_currency (PyStr " baht ") = Ok "THB" /\ resolve_currency (PyStr "thb") = Ok "THB" /\
  resolve_currency (PyStr "Euro") = Ok "EUR" /\ resolve_currency (PyStr "EUR") = Ok "EUR" /\
  "THB" <> "UNKNOWN" /\ "EUR" <> "UNKNOWN" /\
  convert (PyInt 250) (PyStr " baht ") (PyStr "Euro") =
  convert (PyInt 250) (PyStr "thb") (PyStr "EUR").
Proof.
  assert (H1 : "THB" <> "UNKNOWN") by discriminate.
  assert (H2 : "EUR" <> "UNKNOWN") by discriminate.
  refine (conj eq_refl (conj eq_refl (conj eq_refl (conj eq_refl (conj H1 (conj H2 _)))))).
  exact (convert_depends_on_resolved_codes (PyInt 250) (PyStr " baht ") (PyStr "thb")
           (PyStr "Euro") (PyStr "EUR") "THB" "EUR" eq_refl eq_refl eq_refl eq_refl H1 H2).
Defined.

(** X7. A conversion from a currency to itself is not the identity, it is
    an error: when both currency arguments resolve to the same supported
    code and [float] accepts the amount, [convert] returns the error "No
    rate for" that code to itself. *)
Theorem convert_same_currency
    (amount base quote : PyVal) (amt : float) (c : string) :
  py_float amount = Some amt ->
  resolve_currency base = Ok c -> resolve_currency quote = Ok c ->
  In c SUPPORTED ->
  convert amount base quote =
  Ok (PyDict [("error", PyStr ("No rate for " ++ c ++ "->" ++ c));
              ("supported_pairs",
               PyList (map PyStr ["EUR->THB"; "EUR->USD"; "THB->EUR";
                                  "THB->USD"; "USD->EUR"; "USD->THB"]))]).
Proof.
  intros Ha Hb Hq Hc.
  apply (convert_no_rate amount base quote amt c c); auto using supported_not_unknown.
  destruct (dict_get RATE_TABLE (c ++ "->" ++ c)) as [rate|] eqn:Hr; [|reflexivity].
  exfalso. apply (rate_table_pairs c c rate) in Hr; [|now right|now right].
  destruct Hr as [_ [_ Hne]]. now apply Hne.
Qed.

Lemma convert_same_currency_witness :
  py_float (PyInt 10) = Some (float_of_decimal false 10 0) /\
  resolve_currency (PyStr "USD") = Ok "USD" /\ resolve_currency (PyStr "dollar") = Ok "USD" /\
  In "USD" SUPPORTED /\
  convert (PyInt 10) (PyStr "USD") (PyStr "dollar") =
  Ok (PyDict [("error", PyStr "No rate for USD->USD");
              ("supported_pairs",
               PyList [PyStr "EUR->THB"; PyStr "EUR->USD"; PyStr "THB->EUR";
                       PyStr "THB->USD"; PyStr "USD->EUR"; PyStr "USD->THB"])]).
Proof.
  assert (H : In "USD" SUPPORTED) by (simpl; tauto).
  refine (conj eq_refl (conj eq_refl (conj eq_refl (conj H _)))).
  exact (convert_same_currency (PyInt 10) (PyStr "USD") (PyStr "dollar") _ "USD"
           eq_refl eq_refl eq_refl H).
Defined.

(** X8. A success result is consistent with the tables: its base and
    quote are two different codes of [SUPPORTED], the codes the two
    currency arguments resolve to; its rate is the entry of [RATE_TABLE]
    for that pair; its amount is [float(amount)]; and it holds these five
    fields, in this order, and no other. *)
Theorem convert_success_fields
    (amount base quote : PyVal) (d : list (string * PyVal)) (c : PyVal) :
  convert amount base quote = Ok (PyDict d) ->
  dict_get d "converted" = Some c ->
  exists (amt rate : float) (b q : string),
    d = [("amount", PyFloat amt); ("base", PyStr b); ("quote", PyStr q);
         ("rate", PyFloat rate); ("converted", c)] /\
    py_float amount = Some amt /\
    resolve_currency base = Ok b /\ resolve_currency quote = Ok q /\
    In b SUPPORTED /\ In q SUPPORTED /\ b <> q /\
    dict_get RATE_TABLE (b ++ "->" ++ q) = Some rate.
Proof.
  intros H Hc.
  destruct (py_float amount) as [amt|] eqn:Ha;
    [|rewrite (convert_not_a_number amount base quote Ha) in H;
      injection H as <-; discriminate Hc].
  destruct (resolve_currency base) as [b|e] eqn:Hb;
    [|unfold convert in H; rewrite Ha, Hb in H; discriminate H].
  destruct (resolve_currency quote) as [q|e] eqn:Hq;
    [|unfold convert in H; rewrite Ha, Hb, Hq in H; discriminate H].
  rewrite (convert_resolved amount base quote amt b q Ha Hb Hq) in H.
  destruct (String.eqb b "UNKNOWN" || String.eqb q "UNKNOWN");
    [injection H as <-; discriminate Hc|].
  destruct (dict_get RATE_TABLE (b ++ "->" ++ q)) as [rate|] eqn:Hr;
    [|injection H as <-; discriminate Hc].
  unfold bind in H. destruct (py_round (float_mul amt rate) 4) as [conv|]; [|discriminate H].
  injection H as <-. simpl in Hc. injection Hc as <-.
  destruct (rate_table_pairs b q rate) as [Hbs [Hqs Hne]]; auto;
    try (eapply resolve_currency_range; eassumption).
  exists amt, rate, b, q. repeat split; auto.
Qed.

Lemma convert_success_fields_witness :
  convert (PyInt 100) (PyStr "usd") (PyStr "baht") =
    Ok (PyDict [("amount", PyFloat (float_of_decimal false 100 0));
                ("base", PyStr "USD"); ("quote", PyStr "THB");
                ("rate", PyFloat (float_of_decimal false 350 (-1)));
                ("converted", PyFloat (float_of_decimal false 35000 (-1)))]) /\
  dict_get [("amount", PyFloat (float_of_decimal false 100 0));
            ("base", PyStr "USD"); ("quote", PyStr "THB");
            ("rate", PyFloat (float_of_decimal false 350 (-1)));
            ("converted", PyFloat (float_of_decimal false 35000 (-1)))] "converted" =
    Some (PyFloat (float_of_decimal false 35000 (-1))) /\
  exists (amt rate : float) (b q : string),
    [("amount", PyFloat (float_of_decimal false 100 0));
     ("base", PyStr "USD"); ("quote", PyStr "THB");
     ("rate", PyFloat (float_of_decimal false 350 (-1)));
     ("converted", PyFloat (float_of_decimal false 35000 (-1)))] =
    [("amount", PyFloat amt); ("base", PyStr b); ("quote", PyStr q);
     ("rate", PyFloat rate); ("converted", PyFloat (float_of_decimal false 35000 (-1)))] /\
    py_float (PyInt 100) = Some amt /\
    resolve_currency (PyStr "usd") = Ok b /\ resolve_currency (PyStr "baht") = Ok q /\
    In b SUPPORTED /\ In q SUPPORTED /\ b <> q /\
    dict_get RATE_TABLE (b ++ "->" ++ q) = Some rate.
Proof.
  assert (H : convert (PyInt 100) (PyStr "usd") (PyStr "baht") =
    Ok (PyDict [("amount", PyFloat (float_of_decimal false 100 0));
                ("base", PyStr "USD"); ("quote", PyStr "THB");
                ("rate", PyFloat (float_of_decimal false 350 (-1)));
                ("converted", PyFloat (float_of_decimal false 35000 (-1)))]))
    by (vm_compute; reflexivity).
  refine (conj H (conj eq_refl _)).
  exact (convert_success_fields _ _ _ _ _ H eq_refl).
Defined.

Lemma convert_raise_cases (amount base quote : PyVal) (e : PyExn) :
  convert amount base quote = Raise e ->
  (e = AttributeError base "strip" /\ truthy base = true /\
   forall s : string, base <> PyStr s) \/
  (e = AttributeError quote "strip" /\ truthy quote = true /\
   (forall s : string, quote <> PyStr s) /\
   exists b : string, resolve_currency base = Ok b) \/
  (e = OverflowError "rounded value too large to represent" /\
   exists (amt rate : float) (b q : string),
     py_float amount = Some amt /\
     resolve_currency base = Ok b /\ resolve_currency quote = Ok q /\
     dict_get RATE_TABLE (b ++ "->" ++ q) = Some rate /\
     py_round (float_mul amt rate) 4 = Raise e).
Proof.
  intros H.
  destruct (py_float amount) as [amt|] eqn:Ha;
    [|rewrite (convert_not_a_number amount base quote Ha) in H; discriminate H].
  destruct (resolve_currency base) as [b|eb] eqn:Hb.
  - destruct (resolve_currency quote) as [q|eq] eqn:Hq.
    + rewrite (convert_resolved amount base quote amt b q Ha Hb Hq) in H.
      destruct (String.eqb b "UNKNOWN" || String.eqb q "UNKNOWN"); [discriminate H|].
      destruct (dict_get RATE_TABLE (b ++ "->" ++ q)) as [rate|] eqn:Hr; [|discriminate H].
      unfold bind in H.
      destruct (py_round (float_mul amt rate) 4) as [conv|e'] eqn:Hround; [discriminate H|].
      injection H as <-. right. right.
      assert (He : e' = OverflowError "rounded value too large to represent").
      { unfold py_round in Hround.
        destruct (negb (is_finite (float_mul amt rate))); [discriminate|].
        destruct (4 >? NDIGITS_MAX); [discriminate|].
        destruct (4 <? NDIGITS_MIN); [discriminate|].
        unfold double_round in Hround.
        destruct (float_mul amt rate); try discriminate.
        destruct (is_infinite _); [|discriminate]. now injection Hround as <-. }
      split; [exact He|]. exists amt, rate, b, q. now repeat split.
    + unfold convert in H. rewrite Ha, Hb, Hq in H. simpl in H. injection H as <-.
      apply resolve_currency_raise in Hq. destruct Hq as [-> [Ht Hs]].
      right. left. repeat split; auto. now exists b.
  - unfold convert in H. rewrite Ha, Hb in H. simpl in H. injection H as <-.
    apply resolve_currency_raise in Hb. destruct Hb as [-> [Ht Hs]]. now left.
Qed.



(** * Further properties of the tool executor *)

(** ** The registry *)

Lemma dict_get_set_same {V} (d : list (string * V)) (k : string) (v : V) :
  dict_get (dict_set d k v) k = Some v.
Proof.
  induction d as [|[k' v'] d IH]; simpl.
  - now rewrite String.eqb_refl.
  - destruct (String.eqb k k') eqn:E; simpl; rewrite E; auto.
Qed.

Lemma dict_get_set_other {V} (d : list (string * V)) (k k' : string) (v : V) :
  k' <> k -> dict_get (dict_set d k v) k' = dict_get d k'.
Proof.
  intros Hne. induction d as [|[k0 v0] d IH]; simpl.
  - apply String.eqb_neq in Hne. now rewrite Hne.
  - destruct (String.eqb_spec k k0) as [->|Hk]; simpl.
    + apply String.eqb_neq in Hne. now rewrite Hne.
    + now rewrite IH.
Qed.

Lemma dict_get_None_keys {V} (d : list (string * V)) (k : string) :
  dict_get d k = None <-> ~ In k (dict_keys d).
Proof.
  induction d as [|[k' v'] d IH]; simpl; [tauto|].
  destruct (String.eqb_spec k k') as [->|Hne].
  - split; [discriminate|]. intros H. exfalso. apply H. now left.
  - rewrite IH. split; [intros H [E|E]; [congruence|auto] | tauto].
Qed.

Lemma dict_keys_set {V} (d : list (string * V)) (k : string) (v : V) :
  dict_keys (dict_set d k v) =
  if mem k (dict_keys d) then dict_keys d else (dict_keys d ++ [k])%list.
Proof.
  induction d as [|[k' v'] d IH]; simpl; [reflexivity|].
  destruct (String.eqb k k'); simpl; [reflexivity|].
  rewrite IH. now destruct (mem k (dict_keys d)).
Qed.

(** X10. Registering a tool: its callable is what the registry then holds
    under its name, the other names keep their callables, no name occurs
    twice in the registry, and the schema is appended to the list sent to
    the provider.  Registering a name again replaces the callable in place
    but still appends the schema, so that the schema list then holds two
    entries for one tool. *)
Theorem register_tool_lookup
    (self : Executor) (n : string) (func : Callable) (schema : PyVal) :
  let self' := register_tool self n func schema in
  dict_get (tools self') n = Some func /\
  (forall m : string, m <> n -> dict_get (tools self') m = dict_get (tools self) m) /\
  tool_schemas self' = (tool_schemas self ++ [schema])%list /\
  (NoDup (dict_keys (tools self)) -> NoDup (dict_keys (tools self'))) /\
  (dict_get (tools self) n <> None ->
   dict_keys (tools self') = dict_keys (tools self) /\
   List.length (tool_schemas self') = S (List.length (tool_schemas self))).
Proof.
  simpl. split; [apply dict_get_set_same|]. split; [|split; [reflexivity|split]].
  - intros m Hm. now apply dict_get_set_other.
  - intros Hnd. rewrite dict_keys_set.
    destruct (mem n (dict_keys (tools self))) eqn:Hm; [exact Hnd|].
    apply NoDup_app; [exact Hnd|repeat constructor; auto|].
    intros x Hx [<-|[]]. apply mem_In in Hx. congruence.
  - intros Hn. split.
    + rewrite dict_keys_set.
      destruct (mem n (dict_keys (tools self))) eqn:Hm; [reflexivity|].
      exfalso. apply Hn. apply dict_get_None_keys. intros Hin.
      apply mem_In in Hin. congruence.
    + rewrite length_app. simpl. lia.
Qed.

Lemma register_tool_lookup_witness :
  dict_get (tools Sample.ex) "convert" <> None /\
  dict_keys (tools (register_tool Sample.ex "convert" call_list_supported PyNone)) =
    dict_keys (tools Sample.ex) /\
  List.length (tool_schemas (register_tool Sample.ex "convert" call_list_supported PyNone)) =
    S (List.length (tool_schemas Sample.ex)).
Proof.
  assert (H : dict_get (tools Sample.ex) "convert" <> None) by discriminate.
  refine (conj H _).
  exact (proj2 (proj2 (proj2 (proj2
           (register_tool_lookup Sample.ex "convert" call_list_supported PyNone)))) H).
Defined.

Lemma register_schemas_spec (tool_obj : ToolObject) (schemas : list PyVal) :
  forall self : Executor,
  (forall schema, In schema schemas -> exists n, schema_name schema = Ok n) ->
  exists self' : Executor,
    register_schemas tool_obj schemas self = Ok self' /\
    tool_schemas self' = (tool_schemas self ++ filter (registrable tool_obj) schemas)%list /\
    (forall n func, dict_get (obj_attrs tool_obj) n = Some func ->
       dict_get (tools self) n = Some func \/
       (exists schema, In schema schemas /\ schema_name schema = Ok n) ->
       dict_get (tools self') n = Some func) /\
    (forall n, (forall schema, In schema schemas -> schema_name schema = Ok n ->
                dict_get (obj_attrs tool_obj) n = None) ->
       dict_get (tools self') n = dict_get (tools self) n) /\
    (forall n func, dict_get (tools self) n = Some func ->
       exists func', dict_get (tools self') n = Some func').
Proof.
  induction schemas as [|schema rest IH]; intros self Hnames.
  - exists self. simpl. rewrite app_nil_r. repeat split; auto.
    + intros n func _ [H|[s [[] _]]]; exact H.
    + intros n func H. now exists func.
  - destruct (Hnames schema (or_introl eq_refl)) as [n0 Hn0].
    assert (Hrest : forall s, In s rest -> exists n, schema_name s = Ok n)
      by (intros s Hs; apply Hnames; now right).
    simpl. rewrite Hn0. simpl. unfold registrable at 1. rewrite Hn0.
    destruct (dict_get (obj_attrs tool_obj) n0) as [f0|] eqn:Hattr.
    + destruct (IH (register_tool self n0 f0 schema) Hrest)
        as [self' [Hreg [Hsch [Ha [Hb Hm]]]]].
      exists self'. split; [exact Hreg|]. split; [|split; [|split]].
      * rewrite Hsch. simpl. now rewrite <- app_assoc.
      * intros n func Hf Hor. apply Ha; [exact Hf|].
        destruct (String.eqb_spec n n0) as [->|Hne].
        -- left. simpl. rewrite dict_get_set_same. congruence.
        -- destruct Hor as [H|[s [[<-|Hs] Hsn]]].
           ++ left. simpl. now rewrite dict_get_set_other.
           ++ congruence.
           ++ right. now exists s.
      * intros n Hnone. rewrite Hb by (intros s Hs; apply Hnone; now right).
        simpl. apply dict_get_set_other. intros ->.
        specialize (Hnone schema (or_introl eq_refl) Hn0). congruence.
      * intros n func Hf. destruct (String.eqb_spec n n0) as [->|Hne].
        -- apply (Hm n0 f0). simpl. apply dict_get_set_same.
        -- apply (Hm n func). simpl. now rewrite dict_get_set_other.
    + destruct (IH self Hrest) as [self' [Hreg [Hsch [Ha [Hb Hm]]]]].
      exists self'. split; [exact Hreg|]. split; [exact Hsch|]. split; [|split].
      * intros n func Hf Hor. apply Ha; [exact Hf|].
        destruct Hor as [H|[s [[<-|Hs] Hsn]]]; [now left| |right; now exists s].
        congruence.
      * intros n Hnone. apply Hb. intros s Hs. apply Hnone. now right.
      * exact Hm.
Qed.

(** X11. [register_tools] on a tool object whose schemas all carry a text
    under "name": it does not raise; it appends, in order, the schemas
    whose name is an attribute of the object and skips the others; under
    each such name the registry then holds that attribute; names no schema
    carries keep their callable; and if every schema offered to the
    provider named a registered tool before, that is so afterwards. *)
Theorem register_tools_registers (self : Executor) (tool_obj : ToolObject) :
  (forall schema, In schema (obj_schemas tool_obj) ->
                  exists n, schema_name schema = Ok n) ->
  exists self' : Executor,
    register_tools self tool_obj = Ok self' /\
    tool_schemas self' =
      (tool_schemas self ++ filter (registrable tool_obj) (obj_schemas tool_obj))%list /\
    (forall schema n func,
        In schema (obj_schemas tool_obj) -> schema_name schema = Ok n ->
        dict_get (obj_attrs tool_obj) n = Some func ->
        dict_get (tools self') n = Some func) /\
    (forall n, (forall schema, In schema (obj_schemas tool_obj) ->
                               schema_name schema <> Ok n) ->
               dict_get (tools self') n = dict_get (tools self) n) /\
    (consistent self -> consistent self').
Proof.
  intros Hnames.
  destruct (register_schemas_spec tool_obj (obj_schemas tool_obj) self Hnames)
    as [self' [Hreg [Hsch [Ha [Hb Hm]]]]].
  exists self'. split; [exact Hreg|]. split; [exact Hsch|]. split; [|split].
  - intros schema n func Hin Hn Hf. apply Ha; [exact Hf|]. right. now exists schema.
  - intros n Hn. apply Hb. intros schema Hin Hs. now destruct (Hn schema Hin).
  - intros Hc schema Hin. rewrite Hsch in Hin. apply in_app_or in Hin.
    destruct Hin as [Hin|Hin].
    + destruct (Hc schema Hin) as [n [func [Hn Hf]]].
      destruct (Hm n func Hf) as [func' Hf']. now exists n, func'.
    + apply filter_In in Hin. destruct Hin as [Hin Hr].
      unfold registrable in Hr.
      destruct (schema_name schema) as [n|] eqn:Hn; [|discriminate].
      destruct (dict_get (obj_attrs tool_obj) n) as [func|] eqn:Hf; [|discriminate].
      exists n, func. split; [reflexivity|]. apply Ha; [exact Hf|]. right. now exists schema.
Qed.

Lemma tools_object_schemas_named :
  forall schema, In schema (obj_schemas tools_object) -> exists n, schema_name schema = Ok n.
Proof.
  simpl. intros schema H.
  repeat (destruct H as [<-|H]; [eexists; reflexivity|]). contradiction.
Qed.

Lemma register_tools_registers_witness :
  (forall schema, In schema (obj_schemas tools_object) ->
                  exists n, schema_name schema = Ok n) /\
  exists self' : Executor,
    register_tools new_executor tools_object = Ok self' /\
    tool_schemas self' =
      (tool_schemas new_executor ++
       filter (registrable tools_object) (obj_schemas tools_object))%list /\
    (forall schema n func,
        In schema (obj_schemas tools_object) -> schema_name schema = Ok n ->
        dict_get (obj_attrs tools_object) n = Some func ->
        dict_get (tools self') n = Some func) /\
    (forall n, (forall schema, In schema (obj_schemas tools_object) ->
                               schema_name schema <> Ok n) ->
               dict_get (tools self') n = dict_get (tools new_executor) n) /\
    (consistent new_executor -> consistent self').
Proof.
  refine (conj tools_object_schemas_named _).
  exact (register_tools_registers new_executor tools_object tools_object_schemas_named).
Defined.

(** ** Calling a tool with keyword arguments *)

Lemma bind_arguments_ok (callee : string) (params : list string)
    (kwargs : list (string * PyVal)) :
  (forall k, In k (dict_keys kwargs) <-> In k params) ->
  bind_arguments callee params kwargs =
  Ok (map (fun p => match dict_get kwargs p with Some v => v | None => PyNone end) params).
Proof.
  intros H. unfold bind_arguments.
  assert (H1 : forallb (fun k => mem k params) (dict_keys kwargs) = true)
    by (apply forallb_forall; intros k Hk; apply mem_In; now apply H).
  assert (H2 : forallb (fun p => mem p (dict_keys kwargs)) params = true)
    by (apply forallb_forall; intros k Hk; apply mem_In; now apply H).
  now rewrite H1, H2.
Qed.

Lemma bind_arguments_fails (callee : string) (params : list string)
    (kwargs : list (string * PyVal)) :
  ~ (forall k, In k (dict_keys kwargs) <-> In k params) ->
  bind_arguments callee params kwargs = Raise (TypeError_arguments callee params kwargs).
Proof.
  intros H. unfold bind_arguments.
  destruct (forallb (fun k => mem k params) (dict_keys kwargs)) eqn:H1; [|reflexivity].
  destruct (forallb (fun p => mem p (dict_keys kwargs)) params) eqn:H2; [|reflexivity].
  exfalso. apply H. intros k. rewrite forallb_forall in H1, H2. split; intros Hk.
  - apply mem_In. now apply H1.
  - apply mem_In. now apply H2.
Qed.

(** X12. The schemas agree with the methods they describe: for each
    schema of [get_schemas] and the method of that name, a call whose
    keywords are exactly the names the schema lists as required never
    fails to bind, and a call with any other set of keywords (one missing,
    one unknown) raises the [TypeError] of the binding and does not run the
    method. *)
Theorem schema_matches_signature
    (schema : PyVal) (n : string) (func : Callable) (kwargs : list (string * PyVal)) :
  In schema get_schemas ->
  schema_name schema = Ok n ->
  dict_get (obj_attrs tools_object) n = Some func ->
  ((forall k, In k (dict_keys kwargs) <-> In k (schema_required schema)) ->
   forall callee params kw, func kwargs <> Raise (TypeError_arguments callee params kw)) /\
  (~ (forall k, In k (dict_keys kwargs) <-> In k (schema_required schema)) ->
   exists callee params, func kwargs = Raise (TypeError_arguments callee params kwargs)).
Proof.
  intros Hin Hn Hf. simpl in Hin.
  destruct Hin as [<-|[<-|[<-|[]]]]; simpl in Hn; injection Hn as <-;
    simpl in Hf; injection Hf as <-; simpl schema_required; split; intros H.
  - intros callee params kw. unfold call_list_supported.
    rewrite (bind_arguments_ok _ _ _ H). discriminate.
  - exists "CurrencyTools.list_supported", []. unfold call_list_supported.
    now rewrite (bind_arguments_fails _ _ _ H).
  - intros callee params kw. unfold call_resolve_currency.
    rewrite (bind_arguments_ok _ _ _ H). simpl.
    destruct (resolve_currency _) as [r|e] eqn:Hr; simpl; [discriminate|].
    apply resolve_currency_raise in Hr. destruct Hr as [-> _]. discriminate.
  - exists "CurrencyTools.resolve_currency", ["name_or_code"]. unfold call_resolve_currency.
    now rewrite (bind_arguments_fails _ _ _ H).
  - intros callee params kw. unfold call_convert.
    rewrite (bind_arguments_ok _ _ _ H). simpl.
    destruct (convert _ _ _) as [r|e] eqn:Hc; [discriminate|].
    apply convert_raise_cases in Hc.
    destruct Hc as [[-> _]|[[-> _]|[-> _]]]; discriminate.
  - exists "CurrencyTools.convert", ["amount"; "base"; "quote"]. unfold call_convert.
    now rewrite (bind_arguments_fails _ _ _ H).
Qed.

Lemma schema_matches_signature_witness :
  let schema := nth 2 get_schemas PyNone in
  let kwargs := [("quote", PyStr "THB"); ("amount", PyInt 100); ("base", PyStr "USD")] in
  In schema get_schemas /\
  schema_name schema = Ok "convert" /\
  dict_get (obj_attrs tools_object) "convert" = Some call_convert /\
  (forall k, In k (dict_keys kwargs) <-> In k (schema_required schema)) /\
  forall callee params kw, call_convert kwargs <> Raise (TypeError_arguments callee params kw).
Proof.
  intros schema kwargs.
  assert (Hin : In schema get_schemas) by (simpl; tauto).
  assert (Hk : forall k, In k (dict_keys kwargs) <-> In k (schema_required schema))
    by (intros k; simpl; tauto).
  refine (conj Hin (conj eq_refl (conj eq_refl (conj Hk _)))).
  exact (proj1 (schema_matches_signature schema "convert" call_convert kwargs
                  Hin eq_refl eq_refl) Hk).
Defined.

(** ** The execution of one tool call *)

Section Dispatch.

Variable json_loads : string -> Result PyVal.
Variable exn_str : PyExn -> string.
Variable self : Executor.

Notation invoke := (invoke json_loads self).
Notation execute_tool := (execute_tool json_loads exn_str self).
Notation tools_getitem := (tools_getitem self).

(** The decoded text is [arguments_text]. *)
Lemma invoke_unfold (fc : ToolCall) :
  invoke fc =
  (args <- json_loads (arguments_text fc);;
   if truthy args then
     func <- tools_getitem (name fc);;
     kwargs <- unpack_mapping (name fc) args;;
     func kwargs
   else
     func <- tools_getitem (name fc);;
     func [])%py.
Proof.
  unfold ToolExecutor.invoke, arguments_text, loads, py_or.
  destruct (arguments fc) as [s|]; simpl; [|reflexivity].
  now destruct (String.eqb s "").
Qed.

(** X13. A call of "convert" whose arguments decode to an object with the
    keys amount, base and quote, in any order, gives exactly what
    [convert] returns for the three values; if [convert] raises, the result
    is [{"error": str(e)}] instead. *)
Theorem execute_tool_convert
    (fc : ToolCall) (kwargs : list (string * PyVal)) (amount base quote : PyVal) :
  dict_get (tools self) "convert" = Some call_convert ->
  name fc = Some "convert" ->
  json_loads (arguments_text fc) = Ok (PyDict kwargs) ->
  (forall k, In k (dict_keys kwargs) -> In k ["amount"; "base"; "quote"]) ->
  dict_get kwargs "amount" = Some amount ->
  dict_get kwargs "base" = Some base ->
  dict_get kwargs "quote" = Some quote ->
  execute_tool fc =
  match convert amount base quote with
  | Ok result => result
  | Raise e => PyDict [("error", PyStr (exn_str e))]
  end.
Proof.
  intros Hf Hn Hj Hkeys Ha Hb Hq.
  assert (Ht : truthy (PyDict kwargs) = true)
    by (destruct kwargs; [discriminate Ha|reflexivity]).
  assert (Hsome : forall p v, dict_get kwargs p = Some v -> In p (dict_keys kwargs)).
  { intros p v Hp. destruct (dict_get_None_keys kwargs p) as [_ Hnone].
    destruct (in_dec string_dec p (dict_keys kwargs)) as [Hi|Hi]; [exact Hi|].
    rewrite (Hnone Hi) in Hp. discriminate. }
  unfold ToolExecutor.execute_tool. rewrite invoke_unfold, Hj, Hn.
  unfold bind at 1. rewrite Ht. unfold ToolExecutor.tools_getitem. rewrite Hf.
  unfold bind at 1. unfold unpack_mapping, bind at 1. unfold call_convert.
  rewrite bind_arguments_ok.
  - cbn [map]. rewrite Ha, Hb, Hq. reflexivity.
  - intros k. split; [apply Hkeys|].
    simpl. intros [<-|[<-|[<-|[]]]]; eauto.
Qed.

(** X14. A call that names no registered tool (a name missing from the
    registry, or [None]) does not abort anything: once its arguments
    decode, the result is [{"error": str(KeyError(name))}] and no callable
    runs.  Arguments that do not decode win over the unknown name: the
    result is then the decoding error, whatever the name. *)
Theorem execute_tool_unknown_tool (fc : ToolCall) :
  (forall v : PyVal,
      json_loads (arguments_text fc) = Ok v ->
      match name fc with
      | Some n => dict_get (tools self) n = None
      | None => True
      end ->
      execute_tool fc = PyDict [("error", PyStr (exn_str (KeyError (opt_str (name fc)))))]) /\
  (forall e : PyExn,
      json_loads (arguments_text fc) = Raise e ->
      execute_tool fc = PyDict [("error", PyStr (exn_str e))]).
Proof.
  unfold ToolExecutor.execute_tool. rewrite invoke_unfold. split.
  - intros v Hj Hn. rewrite Hj. unfold bind at 1.
    assert (Hg : tools_getitem (name fc) = Raise (KeyError (opt_str (name fc)))).
    { unfold ToolExecutor.tools_getitem. destruct (name fc) as [n|]; [|reflexivity].
      now rewrite Hn. }
    rewrite Hg. now destruct (truthy v).
  - intros e Hj. now rewrite Hj.
Qed.

(** X15. What is called depends on the truth value of the decoded
    arguments, not on their being an object: a false value of any type
    ([null], [0], [""], [[]], [{}]) calls the tool without arguments, and a
    true value that is not an object (a number, a text, a non-empty list)
    calls nothing and gives the [TypeError] of the unpacking as the
    [{"error": ...}] result. *)
Theorem execute_tool_not_an_object (fc : ToolCall) (v : PyVal) (n : string) (func : Callable) :
  json_loads (arguments_text fc) = Ok v ->
  name fc = Some n ->
  dict_get (tools self) n = Some func ->
  (truthy v = false ->
   execute_tool fc =
   match func [] with
   | Ok result => result
   | Raise e => PyDict [("error", PyStr (exn_str e))]
   end) /\
  (truthy v = true -> (forall d, v <> PyDict d) ->
   execute_tool fc = PyDict [("error", PyStr (exn_str (TypeError_not_mapping n v)))]).
Proof.
  intros Hj Hn Hf. unfold ToolExecutor.execute_tool. rewrite invoke_unfold, Hj, Hn.
  unfold ToolExecutor.tools_getitem. rewrite Hf. cbn [bind]. split.
  - intros Ht. rewrite Ht. reflexivity.
  - intros Ht Hd. rewrite Ht. destruct v; try reflexivity. now destruct (Hd d).
Qed.

End Dispatch.

Lemma execute_tool_convert_witness :
  let kwargs := [("amount", PyInt 100); ("base", PyStr "USD"); ("quote", PyStr "THB")] in
  let fc := {| name := Some "convert"; arguments := Some Sample.args_convert_100 |} in
  dict_get (tools Sample.ex) "convert" = Some call_convert /\
  name fc = Some "convert" /\
  Sample.json_loads (arguments_text fc) = Ok (PyDict kwargs) /\
  (forall k, In k (dict_keys kwargs) -> In k ["amount"; "base"; "quote"]) /\
  dict_get kwargs "amount" = Some (PyInt 100) /\
  dict_get kwargs "base" = Some (PyStr "USD") /\
  dict_get kwargs "quote" = Some (PyStr "THB") /\
  execute_tool Sample.json_loads Sample.exn_str Sample.ex fc =
  match convert (PyInt 100) (PyStr "USD") (PyStr "THB") with
  | Ok result => result
  | Raise e => PyDict [("error", PyStr (Sample.exn_str e))]
  end.
Proof.
  intros kwargs fc.
  assert (Hk : forall k, In k (dict_keys kwargs) -> In k ["amount"; "base"; "quote"])
    by (intros k H; exact H).
  refine (conj eq_refl (conj eq_refl (conj eq_refl (conj Hk
           (conj eq_refl (conj eq_refl (conj eq_refl _))))))).
  exact (execute_tool_convert Sample.json_loads Sample.exn_str Sample.ex fc kwargs
           (PyInt 100) (PyStr "USD") (PyStr "THB")
           eq_refl eq_refl eq_refl Hk eq_refl eq_refl eq_refl).
Defined.

Lemma execute_tool_unknown_tool_witness :
  let fc := {| name := Some "nope"; arguments := None |} in
  Sample.json_loads (arguments_text fc) = Ok (PyDict []) /\
  dict_get (tools Sample.ex) "nope" = None /\
  execute_tool Sample.json_loads Sample.exn_str Sample.ex fc =
  PyDict [("error", PyStr "'nope'")].
Proof.
  intros fc.
  refine (conj eq_refl (conj eq_refl _)).
  exact (proj1 (execute_tool_unknown_tool Sample.json_loads Sample.exn_str Sample.ex fc)
           (PyDict []) eq_refl eq_refl).
Defined.

Lemma execute_tool_not_an_object_witness :
  let fc := {| name := Some "list_supported"; arguments := Some "null" |} in
  let fc' := {| name := Some "list_supported"; arguments := Some "[1]" |} in
  Sample2.json_loads (arguments_text fc) = Ok PyNone /\
  Sample2.json_loads (arguments_text fc') = Ok (PyList [PyInt 1]) /\
  dict_get (tools Sample.ex) "list_supported" = Some call_list_supported /\
  execute_tool Sample2.json_loads Sample.exn_str Sample.ex fc =
    PyList [PyStr "USD"; PyStr "THB"; PyStr "EUR"; PyStr "JPY"] /\
  execute_tool Sample2.json_loads Sample.exn_str Sample.ex fc' =
    PyDict [("error",
             PyStr "__main__.CurrencyTools.list_supported() argument after ** must be a mapping, not list")].
Proof.
  intros fc fc'.
  refine (conj eq_refl (conj eq_refl (conj eq_refl (conj _ _)))).
  - exact (proj1 (execute_tool_not_an_object Sample2.json_loads Sample.exn_str Sample.ex
                    fc PyNone "list_supported" call_list_supported
                    eq_refl eq_refl eq_refl) eq_refl).
  - assert (Hd : forall d, PyList [PyInt 1] <> PyDict d) by discriminate.
    exact (proj2 (execute_tool_not_an_object Sample2.json_loads Sample.exn_str Sample.ex
                    fc' (PyList [PyInt 1]) "list_supported" call_list_supported
                    eq_refl eq_refl eq_refl) eq_refl Hd).
Defined.

(** * Further properties of [run] *)

Section RunTrace.

Variable completion : nat -> Request -> Result Message.
Variable json_loads : string -> Result PyVal.
Variable exn_str : PyExn -> string.
Variable self : Executor.
Variables (model : string) (temperature : float).

Notation loop := (loop completion json_loads exn_str self model temperature).
Notation run := (run completion json_loads exn_str self).
Notation request_of := (request_of self model temperature).
Notation request_for := (request_for self model temperature).
Notation requests_of := (requests_of json_loads exn_str self model temperature).
Notation conversation := (conversation json_loads exn_str self).
Notation tool_turns := (tool_turns json_loads exn_str self).
Notation after_tool_call :=
  (after_tool_call json_loads exn_str self model temperature).

Lemma conversation_nil (ms : list PyVal) : conversation ms [] = ms.
Proof. unfold ToolExecutor.conversation. simpl. apply app_nil_r. Qed.

Lemma conversation_cons (ms : list PyVal) (fc : ToolCall) (fcs : list ToolCall) :
  conversation (ms ++ tool_turns fc)%list fcs = conversation ms (fc :: fcs).
Proof. unfold ToolExecutor.conversation. simpl. now rewrite <- app_assoc. Qed.

Lemma requests_of_cons (ms : list PyVal) (fc : ToolCall) (fcs : list ToolCall)
    (ending : Ending) :
  requests_of ms (fc :: fcs) ending =
  request_for ms :: requests_of (ms ++ tool_turns fc)%list fcs ending.
Proof.
  unfold ToolExecutor.requests_of.
  assert (Hn : request_count (fc :: fcs) ending = S (request_count fcs ending))
    by (destruct ending; reflexivity).
  rewrite Hn. cbn [seq map firstn]. rewrite conversation_nil. f_equal.
  rewrite <- seq_shift, map_map. apply map_ext. intros k.
  cbn [firstn]. now rewrite conversation_cons.
Qed.

Lemma requests_of_nil (ms : list PyVal) (ending : Ending) :
  requests_of ms [] ending =
  match ending with
  | Exhausted => []
  | _ => [request_for ms]
  end.
Proof.
  unfold ToolExecutor.requests_of.
  destruct ending; cbn [request_count List.length seq map firstn];
    try rewrite conversation_nil; reflexivity.
Qed.

Notation answered_by :=
  (answered_by completion json_loads exn_str self model temperature).

Lemma request_of_for (st : RunState) : request_of st = request_for (messages st).
Proof. reflexivity. Qed.

(** The loop in closed form: it is determined by the tool calls the
    provider asked for and by the way it ends. *)
Lemma loop_trace (turns : list Z) : forall st : RunState,
  exists (fcs : list ToolCall) (ending : Ending),
    (List.length fcs <= List.length turns)%nat /\
    answered_by st turns fcs ending /\
    loop turns st =
    (outcome ending,
     {| messages := conversation (messages st) fcs;
        stdout := (stdout st ++ trace_lines turns fcs ++ final_lines ending)%list;
        requests := (requests st ++ requests_of (messages st) fcs ending)%list |}).
Proof.
  induction turns as [|turn rest IH]; intros st.
  - exists [], Exhausted. split; [simpl; lia|]. split.
    + split; [intros k fc Hk; destruct k; discriminate Hk | reflexivity].
    + simpl. rewrite conversation_nil, requests_of_nil, !app_nil_r. now destruct st.
  - destruct (completion (List.length (requests st)) (request_of st)) as [msg|e] eqn:H.
    + destruct (function_call msg) as [fc|] eqn:Hfc.
      * rewrite (loop_tool_call completion json_loads exn_str self model temperature
                   turn rest st msg fc H Hfc).
        destruct (IH (after_tool_call turn fc st)) as [fcs [ending [Hlen [[Hresp Hend] Hloop]]]].
        exists (fc :: fcs), ending. split; [simpl; lia|]. split; [split|].
        -- intros k fc' Hk. destruct k as [|k]; simpl in Hk.
           ++ injection Hk as <-. exists msg. rewrite Nat.add_0_r.
              cbn [firstn]. rewrite conversation_nil. auto.
           ++ destruct (Hresp k fc' Hk) as [msg' [Hc Hf]]. exists msg'.
              split; [|exact Hf]. cbn [firstn]. rewrite <- conversation_cons.
              replace (List.length (requests st) + S k)%nat
                with (List.length (requests (after_tool_call turn fc st)) + k)%nat;
                [exact Hc|].
              simpl. rewrite length_app. simpl. lia.
        -- assert (Hreq : forall n,
                     (List.length (requests (after_tool_call turn fc st)) + n)%nat =
                     (List.length (requests st) + S n)%nat)
             by (intros n; simpl; rewrite length_app; simpl; lia).
           destruct ending as [|msg'|e']; simpl in Hend |- *.
           ++ lia.
           ++ destruct Hend as [Hlt [Hc Hf]]. split; [lia|]. split; [|exact Hf].
              rewrite <- conversation_cons, <- Hreq. exact Hc.
           ++ destruct Hend as [Hlt Hc]. split; [lia|].
              rewrite <- conversation_cons, <- Hreq. exact Hc.
        -- rewrite Hloop. f_equal.
           change (messages (after_tool_call turn fc st))
             with (messages st ++ tool_turns fc)%list.
           change (stdout (after_tool_call turn fc st))
             with (stdout st ++ intermediate_lines turn fc)%list.
           change (requests (after_tool_call turn fc st))
             with (requests st ++ [request_for (messages st)])%list.
           rewrite conversation_cons, requests_of_cons. cbn [trace_lines].
           now rewrite <- !app_assoc.
      * rewrite (loop_answer completion json_loads exn_str self model temperature
                   turn rest st msg H Hfc).
        exists [], (Answered msg). split; [simpl; lia|]. split; [split|].
        -- intros k fc Hk. destruct k; discriminate Hk.
        -- simpl. rewrite Nat.add_0_r, conversation_nil. split; [lia|]. auto.
        -- simpl. now rewrite conversation_nil, requests_of_nil.
    + rewrite (loop_provider_raises completion json_loads exn_str self model temperature
                 turn rest st e H).
      exists [], (Failed e). split; [simpl; lia|]. split; [split|].
      * intros k fc Hk. destruct k; discriminate Hk.
      * simpl. rewrite Nat.add_0_r, conversation_nil. split; [lia|]. auto.
      * simpl. now rewrite conversation_nil, requests_of_nil, app_nil_r.
Qed.

Lemma nth_error_requests_of (ms : list PyVal) (fcs : list ToolCall) (ending : Ending)
    (k : nat) (req : Request) :
  nth_error (requests_of ms fcs ending) k = Some req ->
  (k < request_count fcs ending)%nat /\
  req = request_for (conversation ms (firstn k fcs)).
Proof.
  unfold ToolExecutor.requests_of. intros H.
  assert (Hlt : (k < request_count fcs ending)%nat).
  { apply nth_error_Some_lt in H. now rewrite length_map, length_seq in H. }
  split; [exact Hlt|].
  rewrite nth_error_map in H.
  rewrite (nth_error_nth' _ 0%nat) in H by (now rewrite length_seq).
  rewrite seq_nth in H by exact Hlt. simpl in H. now injection H as <-.
Qed.


Lemma conversation_length (ms : list PyVal) (fcs : list ToolCall) :
  List.length (conversation ms fcs) = (List.length ms + 2 * List.length fcs)%nat.
Proof.
  unfold ToolExecutor.conversation. rewrite length_app. f_equal.
  induction fcs as [|fc fcs IH]; simpl; [reflexivity|]. rewrite IH. lia.
Qed.

Lemma conversation_prefix (ms : list PyVal) (fcs : list ToolCall) (k : nat) :
  exists tail : list PyVal,
    conversation ms fcs = (conversation ms (firstn k fcs) ++ tail)%list.
Proof.
  unfold ToolExecutor.conversation.
  exists (flat_map tool_turns (skipn k fcs)).
  rewrite <- app_assoc, <- flat_map_app. now rewrite firstn_skipn.
Qed.



(** The run in closed form. *)
Lemma run_trace (user_text : string) (max_turns : Z) :
  exists (fcs : list ToolCall) (ending : Ending),
    (List.length fcs <= Z.to_nat max_turns)%nat /\
    answered_by (initial_state user_text) (py_range 1 (max_turns + 1)) fcs ending /\
    run user_text model max_turns temperature =
    (outcome ending,
     {| messages := conversation (messages (initial_state user_text)) fcs;
        stdout := (trace_lines (py_range 1 (max_turns + 1)) fcs ++ final_lines ending)%list;
        requests := requests_of (messages (initial_state user_text)) fcs ending |}).
Proof.
  destruct (loop_trace (py_range 1 (max_turns + 1)) (initial_state user_text))
    as [fcs [ending [Hlen [Hans Hloop]]]].
  exists fcs, ending. rewrite py_range_length in Hlen.
  split; [lia|]. split; [exact Hans|]. exact Hloop.
Qed.




(** X19. With [max_turns] zero or negative a run does nothing: no request
    is sent, nothing is printed, the conversation is the user message
    alone, and the run returns normally. *)
Theorem run_without_turns (user_text : string) (max_turns : Z) :
  max_turns <= 0 ->
  run user_text model max_turns temperature = (Ok tt, initial_state user_text).
Proof.
  intros H. unfold ToolExecutor.run, py_range.
  replace (Z.to_nat (max_turns + 1 - 1)) with 0%nat by lia. reflexivity.
Qed.


(** X21. The provider always sees the whole conversation so far: the
    [k]-th request of a run (from 0) carries [1 + 2 k] messages, the first
    of which is the user message, together with the schemas of the
    registry, "auto", the model and the temperature of the run; and these
    messages are a prefix of the conversation the run leaves behind, which
    is never shortened or rewritten. *)
Theorem run_requests_carry_conversation
    (user_text : string) (max_turns : Z) (k : nat) (req : Request) :
  let r := run user_text model max_turns temperature in
  nth_error (requests (snd r)) k = Some req ->
  List.length (req_messages req) = (1 + 2 * k)%nat /\
  nth_error (req_messages req) 0 =
    Some (PyDict [("role", PyStr "user"); ("content", PyStr user_text)]) /\
  (exists tail : list PyVal, messages (snd r) = (req_messages req ++ tail)%list) /\
  req_functions req = tool_schemas self /\
  req_function_call req = "auto" /\
  req_model req = model /\
  req_temperature req = temperature.
Proof.
  intros r. subst r.
  destruct (run_trace user_text max_turns) as [fcs [ending [Hlen [[Hresp Hend] Hrun]]]].
  rewrite Hrun. cbn [fst snd requests messages]. intros Hk.
  apply nth_error_requests_of in Hk. destruct Hk as [Hlt ->].
  cbn [req_messages req_functions req_function_call req_model req_temperature
       ToolExecutor.request_for].
  assert (Hk : (k <= List.length fcs)%nat) by (destruct ending; simpl in Hlt; lia).
  split; [|split; [|split]]; auto.
  - rewrite conversation_length, length_firstn. simpl. lia.
  - apply conversation_prefix.
Qed.

End RunTrace.



Lemma run_without_turns_witness :
  0 <= 0 /\
  run Sample.completion_loop Sample.json_loads Sample.exn_str Sample.ex
      "hi" Sample.MODEL 0 default_temperature = (Ok tt, initial_state "hi").
Proof.
  assert (H : 0 <= 0) by lia.
  refine (conj H _).
  exact (run_without_turns Sample.completion_loop Sample.json_loads Sample.exn_str Sample.ex
           Sample.MODEL default_temperature "hi" 0 H).
Defined.


Lemma run_requests_carry_conversation_witness :
  nth_error (requests (snd Sample.demo_run)) 1 = Some Sample.demo_second_request /\
  List.length (req_messages Sample.demo_second_request) = 3%nat /\
  nth_error (req_messages Sample.demo_second_request) 0 =
    Some (PyDict [("role", PyStr "user"); ("content", PyStr "Convert 100 USD to THB")]) /\
  (exists tail : list PyVal,
      messages (snd Sample.demo_run)
      = (req_messages Sample.demo_second_request ++ tail)%list) /\
  req_functions Sample.demo_second_request = tool_schemas Sample.ex /\
  req_function_call Sample.demo_second_request = "auto" /\
  req_model Sample.demo_second_request = Sample.MODEL /\
  req_temperature Sample.demo_second_request = default_temperature.
Proof.
  assert (H : nth_error (requests (snd Sample.demo_run)) 1 = Some Sample.demo_second_request)
    by (vm_compute; reflexivity).
  refine (conj H _).
  exact (run_requests_carry_conversation
           Sample.completion_demo Sample.json_loads Sample.exn_str Sample.ex
           Sample.MODEL default_temperature "Convert 100 USD to THB" default_max_turns
           1 Sample.demo_second_request H).
Defined.
